(** * cf-stack: CloudFormation template generators

    The repository consists of five straight-line Python scripts
    ([vpc.py], [security-groups.py], [load-balancers.py], [db.py],
    [api-asg.py]).  Each one fills a [Template] object of the troposphere
    builder library with parameters, resources and outputs, serialises it
    with [to_yaml] and prints the text into a file under [templates/].

    The development embeds
    - the object graph the scripts build (intrinsic functions, property
      objects, titled objects),
    - the [Template] container with its duplicate-key check,
    - each script as the sequence of the [template.*] calls it makes,
    - the final [try]/[except IOError] block around the file emission,
    and proves the properties of the specification over that embedding. *)

From Stdlib Require Import String Ascii List ZArith Bool Lia DecimalString.
From ExtLib Require Import Structures.Monad Structures.MonadState Structures.MonadExc.
From ExtLib Require Import Data.Monads.StateMonad Data.Monads.EitherMonad.
Import ListNotations.
Import MonadNotation.

Set Warnings "-register-all".

Local Open Scope string_scope.
Local Open Scope monad_scope.
#[local] Existing Instance Monad_stateT.

(* ===================================================================== *)
(** * Strings *)
(* ===================================================================== *)

(** The characters the scripts write as [\n] and as a double quote. *)
Definition nl : string := String (ascii_of_nat 10) EmptyString.
Definition dquote : string := String (ascii_of_nat 34) EmptyString.

(** Membership of a key in a list of strings ([key in d]). *)
Definition mem (x : string) (l : list string) : bool :=
  existsb (String.eqb x) l.

(** [fmt.format(arg)] for a format string with one [{}] placeholder, the
    only form the scripts use. *)
Fixpoint format (fmt arg : string) : string :=
  match fmt with
  | String "{" (String "}" rest) => arg ++ rest
  | String c rest => String c (format rest arg)
  | EmptyString => EmptyString
  end.

(** [datetime.datetime]: the fields the scripts format. *)
Record datetime : Type := mkdatetime { year : nat; month : nat; day : nat }.

Definition zpad (width : nat) (n : nat) : string :=
  let digits := NilZero.string_of_uint (Nat.to_uint n) in
  String.concat "" (repeat "0" (width - String.length digits)) ++ digits.

(** [str(n)]: the decimal digits of a number. *)
Definition decimal (n : nat) : string :=
  NilZero.string_of_uint (Nat.to_uint n).

(** One directive of [strftime], as the C library of the platform formats
    it: [%Y] is the year in decimal and is not padded (a year below 1000
    has fewer than four digits), [%m] and [%d] are padded to two digits. *)
Definition directive (dt : datetime) (c : ascii) : string :=
  match c with
  | "Y"%char => decimal (year dt)
  | "m"%char => zpad 2 (month dt)
  | "d"%char => zpad 2 (day dt)
  | _ => String "%" (String c EmptyString)
  end.

(** [dt.strftime(fmt)] for the directives [%Y], [%m] and [%d]. *)
Fixpoint strftime (dt : datetime) (fmt : string) : string :=
  match fmt with
  | String "%" (String c rest) => directive dt c ++ strftime dt rest
  | String c rest => String c (strftime dt rest)
  | EmptyString => EmptyString
  end.

(* ===================================================================== *)
(** * The object graph *)
(* ===================================================================== *)

(** A property value: a Python literal, a list, a property object of the
    builder library ([SecurityGroupRule(...)], [Tags(...)], ...: the class
    name and its keyword arguments in source order) or one of the
    intrinsic-function helpers with the arguments the scripts pass. *)
Inductive value : Type :=
| Str (s : string)
| Int (n : Z)
| Bool (b : bool)
| Lst (l : list value)
| Obj (cls : string) (kw : list (string * value))
| Ref (data : string)
| GetAtt (logicalName attrName : string)
| Join (delimiter : string) (values : list value)
| Sub (input_str : string)
| ImportValue (data : value)
| FindInMap (mapname toplevelkey secondlevelkey : string)
| Select (indx : Z) (objects : value)
| GetAZs (region : value)
| Base64 (data : value)
| Export_ (name : value).

Declare Scope kw_scope.
Notation "k =: v" := (pair k%string v) (at level 70, no associativity) : kw_scope.
Local Open Scope kw_scope.

(** A titled object ([BaseAWSObject]): a parameter, a resource or an
    output, with the class it was built from and its keyword arguments. *)
Record AWSObject : Type := mkobj {
  title : string;
  cls : string;
  properties : list (string * value)
}.

(** [Ref(obj)] and [GetAtt(obj, ...)] store the title of the object they
    are given. *)
Definition getdata (o : AWSObject) : string := title o.

Definition Parameter_ := fun t kw => mkobj t "Parameter" kw.
Definition Output := fun t kw => mkobj t "Output" kw.
(* troposphere.ec2 *)
Definition VPC := fun t kw => mkobj t "VPC" kw.
Definition Subnet := fun t kw => mkobj t "Subnet" kw.
Definition InternetGateway := fun t kw => mkobj t "InternetGateway" kw.
Definition VPCGatewayAttachment := fun t kw => mkobj t "VPCGatewayAttachment" kw.
Definition Route := fun t kw => mkobj t "Route" kw.
Definition RouteTable := fun t kw => mkobj t "RouteTable" kw.
Definition SubnetRouteTableAssociation :=
  fun t kw => mkobj t "SubnetRouteTableAssociation" kw.
Definition NetworkAcl := fun t kw => mkobj t "NetworkAcl" kw.
Definition NetworkAclEntry := fun t kw => mkobj t "NetworkAclEntry" kw.
Definition SubnetNetworkAclAssociation :=
  fun t kw => mkobj t "SubnetNetworkAclAssociation" kw.
Definition DHCPOptions := fun t kw => mkobj t "DHCPOptions" kw.
Definition VPCDHCPOptionsAssociation :=
  fun t kw => mkobj t "VPCDHCPOptionsAssociation" kw.
Definition EIP := fun t kw => mkobj t "EIP" kw.
Definition NatGateway := fun t kw => mkobj t "NatGateway" kw.
Definition SecurityGroup := fun t kw => mkobj t "SecurityGroup" kw.
Definition Instance_ := fun t kw => mkobj t "Instance" kw.
(* troposphere.elasticloadbalancingv2 *)
Definition LoadBalancer := fun t kw => mkobj t "LoadBalancer" kw.
Definition Listener := fun t kw => mkobj t "Listener" kw.
Definition ListenerRule := fun t kw => mkobj t "ListenerRule" kw.
Definition TargetGroup := fun t kw => mkobj t "TargetGroup" kw.
(* troposphere.autoscaling *)
Definition AutoScalingGroup := fun t kw => mkobj t "AutoScalingGroup" kw.
Definition LaunchConfiguration := fun t kw => mkobj t "LaunchConfiguration" kw.

(** Property objects. *)
Definition Tags := Obj "Tags".
Definition SecurityGroupRule := Obj "SecurityGroupRule".
Definition LoadBalancerAttributes := Obj "LoadBalancerAttributes".
Definition Action := Obj "Action".
Definition Matcher := Obj "Matcher".
Definition FixedResponseConfig := Obj "FixedResponseConfig".
Definition Certificate := Obj "Certificate".
Definition Condition := Obj "Condition".
Definition RedirectConfig := Obj "RedirectConfig".
Definition TargetDescription := Obj "TargetDescription".
Definition BlockDeviceMapping := Obj "BlockDeviceMapping".
Definition EBSBlockDevice := Obj "EBSBlockDevice".

(** [autoscaling.Tag(key, value, propogate)] takes its fields by position. *)
Definition Tag (key : string) (v : value) (propogate : bool) : value :=
  Obj "Tag" ["Key" =: Str key; "Value" =: v; "PropagateAtLaunch" =: Bool propogate].

(** [d.get(key)] on keyword arguments. *)
Fixpoint lookup {A : Type} (key : string) (d : list (string * A)) : option A :=
  match d with
  | [] => None
  | (k, v) :: rest => if String.eqb k key then Some v else lookup key rest
  end.

(* ===================================================================== *)
(** * The Template container *)
(* ===================================================================== *)

(** Python exceptions the model distinguishes.  [IOError] is the name the
    scripts use for [OSError] (the two are the same class in Python 3);
    [strerror] is the text [str(e)] gives. *)
Inductive exn : Type :=
| ValueError (msg : string)
| OSError (strerror : string)
| OtherError (name msg : string).

Definition str_exn (e : exn) : string :=
  match e with
  | ValueError m => m
  | OSError m => m
  | OtherError _ m => m
  end.

(** [isinstance(e, IOError)]. *)
Definition is_IOError (e : exn) : bool :=
  match e with
  | OSError _ => true
  | _ => false
  end.

(** A Python [dict] keyed by title, in insertion order. *)
Definition dict (A : Type) : Type := list (string * A).

Definition keys {A : Type} (d : dict A) : list string := map fst d.

Definition mapping : Type := dict (dict string).

Record Template : Type := mkTemplate {
  version : option string;
  description : option string;
  mappings : dict mapping;
  parameters : dict AWSObject;
  resources : dict AWSObject;
  outputs : dict AWSObject
}.

(** [Template()]. *)
Definition Template_init : Template :=
  mkTemplate None None [] [] [] [].

(** The limits the builder enforces (module constants of troposphere;
    later releases only raise them). *)
Definition MAX_MAPPINGS : nat := 100.
Definition MAX_OUTPUTS : nat := 60.
Definition MAX_PARAMETERS : nat := 60.
Definition MAX_RESOURCES : nat := 200.

(** The builder monad: the template being filled, or a raised exception. *)
Definition builder : Type -> Type := stateT Template (sum exn).

Definition handle_duplicate_key {A : Type} (key : string) : sum exn A :=
  inl (ValueError ("duplicate key " ++ dquote ++ key ++ dquote ++ " detected")).

(** [Template._update(d, values)] for a single object: the title must be
    new in [d]; the object is stored under it at the end of [d]. *)
Definition _update (d : dict AWSObject) (values : AWSObject) : sum exn (dict AWSObject) :=
  if mem (title values) (keys d)
  then handle_duplicate_key (title values)
  else inr (d ++ [(title values, values)])%list.

Definition lift_exn {A : Type} (r : sum exn A) : builder A :=
  match r with
  | inl e => raise e
  | inr a => ret a
  end.

Definition set_version (v : string) : builder unit :=
  t <- get ;;
  put (mkTemplate (Some v) (description t) (mappings t)
                  (parameters t) (resources t) (outputs t)).

Definition set_description (d : string) : builder unit :=
  t <- get ;;
  put (mkTemplate (version t) (Some d) (mappings t)
                  (parameters t) (resources t) (outputs t)).

(** [dict.update]: a present key keeps its place and takes the new value,
    a new key goes to the end. *)
Fixpoint dict_set {A : Type} (k : string) (v : A) (d : dict A) : dict A :=
  match d with
  | [] => [(k, v)]
  | (k', v') :: rest =>
      if String.eqb k' k then (k', v) :: rest else (k', v') :: dict_set k v rest
  end.

Definition dict_update {A : Type} (d new : dict A) : dict A :=
  fold_left (fun acc kv => dict_set (fst kv) (snd kv) acc) new d.

Definition add_mapping (name : string) (m : mapping) : builder unit :=
  t <- get ;;
  if Nat.leb MAX_MAPPINGS (List.length (mappings t))
  then raise (ValueError "Maximum mappings reached")
  else
    let old := match lookup name (mappings t) with Some o => o | None => [] end in
    put (mkTemplate (version t) (description t)
                    (dict_set name (dict_update old m) (mappings t))
                    (parameters t) (resources t) (outputs t)).

Definition add_parameter (parameter : AWSObject) : builder AWSObject :=
  t <- get ;;
  if Nat.leb MAX_PARAMETERS (List.length (parameters t))
  then raise (ValueError "Maximum parameters reached")
  else
    d <- lift_exn (_update (parameters t) parameter) ;;
    put (mkTemplate (version t) (description t) (mappings t)
                    d (resources t) (outputs t)) ;;
    ret parameter.

Definition add_resource (resource : AWSObject) : builder AWSObject :=
  t <- get ;;
  if Nat.leb MAX_RESOURCES (List.length (resources t))
  then raise (ValueError "Maximum number of resources reached")
  else
    d <- lift_exn (_update (resources t) resource) ;;
    put (mkTemplate (version t) (description t) (mappings t)
                    (parameters t) d (outputs t)) ;;
    ret resource.

Definition add_output (output : AWSObject) : builder AWSObject :=
  t <- get ;;
  if Nat.leb MAX_OUTPUTS (List.length (outputs t))
  then raise (ValueError "Maximum outputs reached")
  else
    d <- lift_exn (_update (outputs t) output) ;;
    put (mkTemplate (version t) (description t) (mappings t)
                    (parameters t) (resources t) d) ;;
    ret output.

(** One call on the [template] object, as the scripts make them. *)
Inductive stmt : Type :=
| SetVersion (v : string)
| SetDescription (d : string)
| AddMapping (name : string) (m : mapping)
| AddParameter (o : AWSObject)
| AddResource (o : AWSObject)
| AddOutput (o : AWSObject).

Definition exec (s : stmt) : builder unit :=
  match s with
  | SetVersion v => set_version v
  | SetDescription d => set_description d
  | AddMapping n m => add_mapping n m
  | AddParameter o => add_parameter o ;; ret tt
  | AddResource o => add_resource o ;; ret tt
  | AddOutput o => add_output o ;; ret tt
  end.

(** The calls of a script, top to bottom. *)
Fixpoint exec_all (ss : list stmt) : builder unit :=
  match ss with
  | [] => ret tt
  | s :: rest => exec s ;; exec_all rest
  end.

(** The template a call sequence leaves behind when started from
    [Template()], or the exception that stopped it. *)
Definition run_from (t : Template) (ss : list stmt) : sum exn Template :=
  match runStateT (exec_all ss) t with
  | inl e => inl e
  | inr (_, t') => inr t'
  end.

Definition build (ss : list stmt) : sum exn Template := run_from Template_init ss.
(* ===================================================================== *)
(** * [vpc.py] *)
(* ===================================================================== *)

Module Vpc.

Definition template_file : string := "templates/vpc.yaml".

Definition vpc_cidr_block : string := "10.10.0.0/16".

Definition public_subnet_1_cidr : string := "10.10.1.0/24".

Definition public_subnet_2_cidr : string := "10.10.2.0/24".

Definition public_subnet_3_cidr : string := "10.10.3.0/24".

Definition private_subnet_1_cidr : string := "10.10.128.0/24".

Definition private_subnet_2_cidr : string := "10.10.129.0/24".

Definition private_subnet_3_cidr : string := "10.10.130.0/24".

Definition office_ip_1 : string := "192.xxx.xxx.xxx/32".

Definition office_ip_2 : string := "192.xxx.xxx.xxx/32".

Definition ref_region : value := Ref "AWS::Region".

Definition ref_stack_id : value := Ref "AWS::StackId".

Definition ref_stack_name : value := Ref "AWS::StackName".

Definition vpc : AWSObject :=
  VPC "VPC" [
    "CidrBlock" =: FindInMap "SubnetConfig" "VPC" "CIDR";
    "EnableDnsSupport" =: Str "true";
    "EnableDnsHostnames" =: Bool true;
    "Tags" =: Tags ["Name" =: ref_stack_name; "Application" =: ref_stack_name]].

Definition public_subnet_1 : AWSObject :=
  Subnet "PublicSubnet1" [
    "AvailabilityZone" =: Select 0 (GetAZs (ref_region));
    "CidrBlock" =: FindInMap "SubnetConfig" "PublicSubnet1" "CIDR";
    "VpcId" =: Ref (getdata vpc);
    "MapPublicIpOnLaunch" =: Bool true;
    "Tags" =: Tags [
      "Name" =: Join "-" [ref_stack_name; Str "public-subnet-1"];
      "Application" =: ref_stack_name]].

Definition public_subnet_2 : AWSObject :=
  Subnet "PublicSubnet2" [
    "AvailabilityZone" =: Select 1 (GetAZs (ref_region));
    "CidrBlock" =: FindInMap "SubnetConfig" "PublicSubnet2" "CIDR";
    "VpcId" =: Ref (getdata vpc);
    "MapPublicIpOnLaunch" =: Bool true;
    "Tags" =: Tags [
      "Name" =: Join "-" [ref_stack_name; Str "public-subnet-2"];
      "Application" =: ref_stack_name]].

Definition public_subnet_3 : AWSObject :=
  Subnet "PublicSubnet3" [
    "AvailabilityZone" =: Select 2 (GetAZs (ref_region));
    "CidrBlock" =: FindInMap "SubnetConfig" "PublicSubnet3" "CIDR";
    "VpcId" =: Ref (getdata vpc);
    "MapPublicIpOnLaunch" =: Bool true;
    "Tags" =: Tags [
      "Name" =: Join "-" [ref_stack_name; Str "public-subnet-3"];
      "Application" =: ref_stack_name]].

Definition private_subnet_1 : AWSObject :=
  Subnet "PrivateSubnet1" [
    "AvailabilityZone" =: Select 0 (GetAZs (ref_region));
    "CidrBlock" =: FindInMap "SubnetConfig" "PrivateSubnet1" "CIDR";
    "VpcId" =: Ref (getdata vpc);
    "MapPublicIpOnLaunch" =: Bool false;
    "Tags" =: Tags [
      "Name" =: Join "-" [ref_stack_name; Str "private-subnet-1"];
      "Application" =: ref_stack_name]].

Definition private_subnet_2 : AWSObject :=
  Subnet "PrivateSubnet2" [
    "AvailabilityZone" =: Select 1 (GetAZs (ref_region));
    "CidrBlock" =: FindInMap "SubnetConfig" "PrivateSubnet2" "CIDR";
    "VpcId" =: Ref (getdata vpc);
    "MapPublicIpOnLaunch" =: Bool false;
    "Tags" =: Tags [
      "Name" =: Join "-" [ref_stack_name; Str "private-subnet-2"];
      "Application" =: ref_stack_name]].

Definition private_subnet_3 : AWSObject :=
  Subnet "PrivateSubnet3" [
    "AvailabilityZone" =: Select 2 (GetAZs (ref_region));
    "CidrBlock" =: FindInMap "SubnetConfig" "PrivateSubnet3" "CIDR";
    "VpcId" =: Ref (getdata vpc);
    "MapPublicIpOnLaunch" =: Bool false;
    "Tags" =: Tags [
      "Name" =: Join "-" [ref_stack_name; Str "private-subnet-3"];
      "Application" =: ref_stack_name]].

Definition internet_gateway : AWSObject :=
  InternetGateway "InternetGateway" ["Tags" =: Tags ["Application" =: ref_stack_name]].

Definition gateway_attachment : AWSObject :=
  VPCGatewayAttachment "AttachGateway" [
    "VpcId" =: Ref (getdata vpc);
    "InternetGatewayId" =: Ref (getdata internet_gateway)].

Definition public_route_table : AWSObject :=
  RouteTable "PublicRouteTable" [
    "VpcId" =: Ref (getdata vpc);
    "Tags" =: Tags [
      "Name" =: Join "-" [ref_stack_name; Str "public-rt"];
      "Application" =: ref_stack_name]].

Definition private_route_table : AWSObject :=
  RouteTable "PrivateRouteTable" [
    "VpcId" =: Ref (getdata vpc);
    "Tags" =: Tags [
      "Name" =: Join "-" [ref_stack_name; Str "private-rt"];
      "Application" =: ref_stack_name]].

Definition route_to_internet : AWSObject :=
  Route "RouteToInternet" [
    "DependsOn" =: Str "AttachGateway";
    "GatewayId" =: Ref (getdata internet_gateway);
    "DestinationCidrBlock" =: Str "0.0.0.0/0";
    "RouteTableId" =: Ref (getdata public_route_table)].

Definition nat_ip : AWSObject :=
  EIP "NatEip" ["Domain" =: Str "vpc"].

Definition nat_gateway : AWSObject :=
  NatGateway "NATGateway" [
    "AllocationId" =: GetAtt (getdata nat_ip) "AllocationId";
    "SubnetId" =: Ref (getdata public_subnet_1);
    "Tags" =: Tags ["Application" =: ref_stack_name]].

Definition nat_route : AWSObject :=
  Route "NATRoute" [
    "RouteTableId" =: Ref (getdata private_route_table);
    "NatGatewayId" =: Ref (getdata nat_gateway);
    "DestinationCidrBlock" =: Str "0.0.0.0/0"].

Definition public_subnet_1_route_table_association : AWSObject :=
  SubnetRouteTableAssociation "PublicSubnet1RouteTableAssociation" [
    "SubnetId" =: Ref (getdata public_subnet_1);
    "RouteTableId" =: Ref (getdata public_route_table)].

Definition public_subnet_2_route_table_association : AWSObject :=
  SubnetRouteTableAssociation "PublicSubnet2RouteTableAssociation" [
    "SubnetId" =: Ref (getdata public_subnet_2);
    "RouteTableId" =: Ref (getdata public_route_table)].

Definition public_subnet_3_route_table_association : AWSObject :=
  SubnetRouteTableAssociation "PublicSubnet3RouteTableAssociation" [
    "SubnetId" =: Ref (getdata public_subnet_3);
    "RouteTableId" =: Ref (getdata public_route_table)].

Definition private_subnet_1_route_table_association : AWSObject :=
  SubnetRouteTableAssociation "PrivateSubnet1RouteTableAssociation" [
    "SubnetId" =: Ref (getdata private_subnet_1);
    "RouteTableId" =: Ref (getdata private_route_table)].

Definition private_subnet_2_route_table_association : AWSObject :=
  SubnetRouteTableAssociation "PrivateSubnet2RouteTableAssociation" [
    "SubnetId" =: Ref (getdata private_subnet_2);
    "RouteTableId" =: Ref (getdata private_route_table)].

Definition private_subnet_3_route_table_association : AWSObject :=
  SubnetRouteTableAssociation "PrivateSubnet3RouteTableAssociation" [
    "SubnetId" =: Ref (getdata private_subnet_3);
    "RouteTableId" =: Ref (getdata private_route_table)].

Definition public_network_acl : AWSObject :=
  NetworkAcl "PublicNetworkAcl" [
    "VpcId" =: Ref (getdata vpc);
    "Tags" =: Tags [
      "Name" =: Join "-" [ref_stack_name; Str "public-nacl"];
      "Application" =: ref_stack_name]].

Definition private_network_acl : AWSObject :=
  NetworkAcl "PrivateNetworkAcl" [
    "VpcId" =: Ref (getdata vpc);
    "Tags" =: Tags [
      "Name" =: Join "-" [ref_stack_name; Str "private-nacl"];
      "Application" =: ref_stack_name]].

Definition inbound_public_acl_entry : AWSObject :=
  NetworkAclEntry "InboundPublicNetworkAclEntry" [
    "NetworkAclId" =: Ref (getdata public_network_acl);
    "RuleNumber" =: Int 100;
    "Protocol" =: Int (-1);
    "RuleAction" =: Str "allow";
    "Egress" =: Bool false;
    "CidrBlock" =: Str "0.0.0.0/0"].

Definition outbound_public_acl_entry : AWSObject :=
  NetworkAclEntry "OutboundPublicNetworkAclEntry" [
    "NetworkAclId" =: Ref (getdata public_network_acl);
    "RuleNumber" =: Int 100;
    "Protocol" =: Int (-1);
    "RuleAction" =: Str "allow";
    "Egress" =: Bool true;
    "CidrBlock" =: Str "0.0.0.0/0"].

Definition inbound_private_acl_entry : AWSObject :=
  NetworkAclEntry "InboundPrivateNetworkAclEntry" [
    "NetworkAclId" =: Ref (getdata private_network_acl);
    "RuleNumber" =: Int 110;
    "Protocol" =: Int (-1);
    "RuleAction" =: Str "allow";
    "Egress" =: Bool false;
    "CidrBlock" =: Str vpc_cidr_block].

Definition outbound_private_acl_entry : AWSObject :=
  NetworkAclEntry "OutboundPrivateNetworkAclEntry" [
    "NetworkAclId" =: Ref (getdata private_network_acl);
    "RuleNumber" =: Int 110;
    "Protocol" =: Int (-1);
    "RuleAction" =: Str "allow";
    "Egress" =: Bool true;
    "CidrBlock" =: Str "0.0.0.0/0"].

Definition public_subnet_1_network_acl_association : AWSObject :=
  SubnetNetworkAclAssociation "PublicSubnet1NetworkACLAssociation" [
    "SubnetId" =: Ref (getdata public_subnet_1);
    "NetworkAclId" =: Ref (getdata public_network_acl)].

Definition public_subnet_2_network_acl_association : AWSObject :=
  SubnetNetworkAclAssociation "PublicSubnet2NetworkACLAssociation" [
    "SubnetId" =: Ref (getdata public_subnet_2);
    "NetworkAclId" =: Ref (getdata public_network_acl)].

Definition public_subnet_3_network_acl_association : AWSObject :=
  SubnetNetworkAclAssociation "PublicSubnet3NetworkACLAssociation" [
    "SubnetId" =: Ref (getdata public_subnet_3);
    "NetworkAclId" =: Ref (getdata public_network_acl)].

Definition private_subnet_1_network_acl_association : AWSObject :=
  SubnetNetworkAclAssociation "PrivateSubnet1NetworkACLAssociation" [
    "SubnetId" =: Ref (getdata private_subnet_1);
    "NetworkAclId" =: Ref (getdata private_network_acl)].

Definition private_subnet_2_network_acl_association : AWSObject :=
  SubnetNetworkAclAssociation "PrivateSubnet2NetworkACLAssociation" [
    "SubnetId" =: Ref (getdata private_subnet_2);
    "NetworkAclId" =: Ref (getdata private_network_acl)].

Definition private_subnet_3_network_acl_association : AWSObject :=
  SubnetNetworkAclAssociation "PrivateSubnet3NetworkACLAssociation" [
    "SubnetId" =: Ref (getdata private_subnet_3);
    "NetworkAclId" =: Ref (getdata private_network_acl)].

Definition dhcp_options : AWSObject :=
  DHCPOptions "DHCPOptions" [
    "DomainName" =: Join "." [ref_region; Str "compute.internal"];
    "DomainNameServers" =: Lst [Str "AmazonProvidedDNS"];
    "Tags" =: Tags ["Application" =: ref_stack_name]].

Definition dhcp_options_association : AWSObject :=
  VPCDHCPOptionsAssociation "DHCPOptionsAssociation" [
    "DhcpOptionsId" =: Ref (getdata dhcp_options);
    "VpcId" =: Ref (getdata vpc)].

Definition vpc_output : AWSObject :=
  Output "VPCID" [
    "Value" =: Ref (getdata vpc);
    "Description" =: Str "VPC ID";
    "Export" =: Export_ (Sub "${AWS::StackName}-id")].

Definition vpc_cidr_output : AWSObject :=
  Output "VPCCIDR" [
    "Value" =: Str vpc_cidr_block;
    "Description" =: Str "VPC CIDR Block";
    "Export" =: Export_ (Sub "${AWS::StackName}-cidr")].

Definition public_subnet_1_output : AWSObject :=
  Output "PublicSubnet1ID" [
    "Value" =: Ref (getdata public_subnet_1);
    "Description" =: Str "Public Subnet 1 ID";
    "Export" =: Export_ (Sub "${AWS::StackName}-publicsubnet1")].

Definition public_subnet_2_output : AWSObject :=
  Output "PublicSubnet2ID" [
    "Value" =: Ref (getdata public_subnet_2);
    "Description" =: Str "Public Subnet 2 ID";
    "Export" =: Export_ (Sub "${AWS::StackName}-publicsubnet2")].

Definition public_subnet_3_output : AWSObject :=
  Output "PublicSubnet3ID" [
    "Value" =: Ref (getdata public_subnet_3);
    "Description" =: Str "Public Subnet 3 ID";
    "Export" =: Export_ (Sub "${AWS::StackName}-publicsubnet3")].

Definition private_subnet_1_output : AWSObject :=
  Output "PrivateSubnet1ID" [
    "Value" =: Ref (getdata private_subnet_1);
    "Description" =: Str "Private Subnet 1 ID";
    "Export" =: Export_ (Sub "${AWS::StackName}-privatesubnet1")].

Definition private_subnet_2_output : AWSObject :=
  Output "PrivateSubnet2ID" [
    "Value" =: Ref (getdata private_subnet_2);
    "Description" =: Str "Private Subnet 2 ID";
    "Export" =: Export_ (Sub "${AWS::StackName}-privatesubnet2")].

Definition private_subnet_3_output : AWSObject :=
  Output "PrivateSubnet3ID" [
    "Value" =: Ref (getdata private_subnet_3);
    "Description" =: Str "Private Subnet 3 ID";
    "Export" =: Export_ (Sub "${AWS::StackName}-privatesubnet3")].

(** The calls on [template], in program order. *)
Definition script : list stmt :=
  [ SetVersion "2010-09-09";
    SetDescription "VPC for hosting ACME Corp application.";
    AddMapping "SubnetConfig" [
     ("VPC", [("CIDR", vpc_cidr_block)]);
     ("PublicSubnet1", [("CIDR", public_subnet_1_cidr)]);
     ("PublicSubnet2", [("CIDR", public_subnet_2_cidr)]);
     ("PublicSubnet3", [("CIDR", public_subnet_3_cidr)]);
     ("PrivateSubnet1", [("CIDR", private_subnet_1_cidr)]);
     ("PrivateSubnet2", [("CIDR", private_subnet_2_cidr)]);
     ("PrivateSubnet3", [("CIDR", private_subnet_3_cidr)])];
    AddResource vpc;
    AddResource public_subnet_1;
    AddResource public_subnet_2;
    AddResource public_subnet_3;
    AddResource private_subnet_1;
    AddResource private_subnet_2;
    AddResource private_subnet_3;
    AddResource internet_gateway;
    AddResource gateway_attachment;
    AddResource public_route_table;
    AddResource private_route_table;
    AddResource route_to_internet;
    AddResource nat_ip;
    AddResource nat_gateway;
    AddResource nat_route;
    AddResource public_subnet_1_route_table_association;
    AddResource public_subnet_2_route_table_association;
    AddResource public_subnet_3_route_table_association;
    AddResource private_subnet_1_route_table_association;
    AddResource private_subnet_2_route_table_association;
    AddResource private_subnet_3_route_table_association;
    AddResource public_network_acl;
    AddResource private_network_acl;
    AddResource inbound_public_acl_entry;
    AddResource outbound_public_acl_entry;
    AddResource inbound_private_acl_entry;
    AddResource outbound_private_acl_entry;
    AddResource public_subnet_1_network_acl_association;
    AddResource public_subnet_2_network_acl_association;
    AddResource public_subnet_3_network_acl_association;
    AddResource private_subnet_1_network_acl_association;
    AddResource private_subnet_2_network_acl_association;
    AddResource private_subnet_3_network_acl_association;
    AddResource dhcp_options;
    AddResource dhcp_options_association;
    AddOutput vpc_output;
    AddOutput vpc_cidr_output;
    AddOutput public_subnet_1_output;
    AddOutput public_subnet_2_output;
    AddOutput public_subnet_3_output;
    AddOutput private_subnet_1_output;
    AddOutput private_subnet_2_output;
    AddOutput private_subnet_3_output ].

End Vpc.

(* ===================================================================== *)
(** * [security-groups.py] *)
(* ===================================================================== *)

Module SecurityGroups.

Definition template_file : string := "templates/security-groups.yaml".

Definition jumpserver_ip_1 : string := "xx.xx.xx.xx/32".

Definition jumpserver_ip_2 : string := "xx.xx.xx.xx/32".

Definition ref_stack_name : value := Ref "AWS::StackName".

Definition vpc_stackname_param : AWSObject :=
  Parameter_ "VPCStackName" [
    "Description" =: Str "Name of an active CloudFormation stack that contains the networking resources, such as the vpc, subnet and security group, that will be used in this stack.";
    "Type" =: Str "String";
    "MinLength" =: Str "1";
    "MaxLength" =: Str "255";
    "AllowedPattern" =: Str "^[a-zA-Z][-a-zA-Z0-9]*$"].

Definition alb_security_group : AWSObject :=
  SecurityGroup "LoadBalancerSecurityGroup" [
    "GroupName" =: Join "-" [ref_stack_name; Str "alb-security-group"];
    "GroupDescription" =: Str "Enable traffic to load balancer listeners.";
    "SecurityGroupIngress" =: Lst [
      SecurityGroupRule [
        "Description" =: Str "Enable HTTP access via port 80";
        "IpProtocol" =: Str "tcp";
        "FromPort" =: Int 80;
        "ToPort" =: Int 80;
        "CidrIp" =: Str "0.0.0.0/0"];
      SecurityGroupRule [
        "Description" =: Str "Enable HTTPS access via port 443";
        "IpProtocol" =: Str "tcp";
        "FromPort" =: Int 443;
        "ToPort" =: Int 443;
        "CidrIp" =: Str "0.0.0.0/0"]];
    "VpcId" =: ImportValue (Join "-" [Ref (getdata vpc_stackname_param); Str "id"]);
    "Tags" =: Tags [
      "Application" =: ref_stack_name;
      "Name" =: Join "-" [ref_stack_name; Str "alb-security-group"]]].

Definition api_security_group : AWSObject :=
  SecurityGroup "APIInstanceSecurityGroup" [
    "GroupName" =: Join "-" [ref_stack_name; Str "api-security-group"];
    "GroupDescription" =: Str "Security group for API server.";
    "SecurityGroupIngress" =: Lst [
      SecurityGroupRule [
        "Description" =: Str "Enable SSH access via port 22";
        "IpProtocol" =: Str "tcp";
        "FromPort" =: Int 22;
        "ToPort" =: Int 22;
        "CidrIp" =: Str jumpserver_ip_1];
      SecurityGroupRule [
        "Description" =: Str "Enable SSH access via port 22";
        "IpProtocol" =: Str "tcp";
        "FromPort" =: Int 22;
        "ToPort" =: Int 22;
        "CidrIp" =: Str jumpserver_ip_2];
      SecurityGroupRule [
        "Description" =: Str "Enable HTTP port access from ALB.";
        "IpProtocol" =: Str "tcp";
        "FromPort" =: Int 80;
        "ToPort" =: Int 80;
        "SourceSecurityGroupId" =: Ref (getdata alb_security_group)]];
    "VpcId" =: ImportValue (Join "-" [Ref (getdata vpc_stackname_param); Str "id"]);
    "Tags" =: Tags [
      "Application" =: ref_stack_name;
      "Name" =: Join "-" [ref_stack_name; Str "api-security-group"]]].

Definition db_broker_security_group : AWSObject :=
  SecurityGroup "DBBrokerInstanceSecurityGroup" [
    "GroupName" =: Join "-" [ref_stack_name; Str "db-broker-security-group"];
    "GroupDescription" =: Str "Enable access to db/broker instance from API.";
    "SecurityGroupIngress" =: Lst [
      SecurityGroupRule [
        "Description" =: Str "Enable SSH access via port 22";
        "IpProtocol" =: Str "tcp";
        "FromPort" =: Int 22;
        "ToPort" =: Int 22;
        "SourceSecurityGroupId" =: Ref (getdata api_security_group)];
      SecurityGroupRule [
        "Description" =: Str "Enable db access via port 27017";
        "IpProtocol" =: Str "tcp";
        "FromPort" =: Int 27017;
        "ToPort" =: Int 27017;
        "SourceSecurityGroupId" =: Ref (getdata api_security_group)];
      SecurityGroupRule [
        "Description" =: Str "Enable broker access via port 5672";
        "IpProtocol" =: Str "tcp";
        "FromPort" =: Int 5672;
        "ToPort" =: Int 5672;
        "CidrIp" =: ImportValue (Join "-" [Ref (getdata vpc_stackname_param); Str "cidr"])]];
    "VpcId" =: ImportValue (Join "-" [Ref (getdata vpc_stackname_param); Str "id"]);
    "Tags" =: Tags [
      "Application" =: ref_stack_name;
      "Name" =: Join "-" [ref_stack_name; Str "db-broker-security-group"]]].

Definition alb_security_group_output : AWSObject :=
  Output "LoadBalancerSecurityGroupID" [
    "Value" =: Ref (getdata alb_security_group);
    "Description" =: Str "ALB Security Group ID";
    "Export" =: Export_ (Sub "${AWS::StackName}-loadbalancer")].

Definition api_security_group_output : AWSObject :=
  Output "APISecurityGroupID" [
    "Value" =: Ref (getdata api_security_group);
    "Description" =: Str "API Security Group ID";
    "Export" =: Export_ (Sub "${AWS::StackName}-api")].

Definition db_broker_security_group_output : AWSObject :=
  Output "DatabaseBrokerSecurityGroupID" [
    "Value" =: Ref (getdata db_broker_security_group);
    "Description" =: Str "Database/Broker Security Group ID";
    "Export" =: Export_ (Sub "${AWS::StackName}-database")].

(** The calls on [template], in program order. *)
Definition script : list stmt :=
  [ SetVersion "2010-09-09";
    SetDescription "EC2 Security groups for ACME.";
    AddParameter vpc_stackname_param;
    AddResource alb_security_group;
    AddResource api_security_group;
    AddResource db_broker_security_group;
    AddOutput alb_security_group_output;
    AddOutput api_security_group_output;
    AddOutput db_broker_security_group_output ].

End SecurityGroups.

(* ===================================================================== *)
(** * [load-balancers.py] *)
(* ===================================================================== *)

Module LoadBalancers.

Definition template_file : string := "templates/load-balancers.yaml".

Definition office_ip_1 : string := "192.xxx.xxx.xxx/32".

Definition office_ip_2 : string := "192.xxx.xxx.xxx/32".

Definition ref_stack_name : value := Ref "AWS::StackName".

Definition vpc_stackname_param : AWSObject :=
  Parameter_ "VPCStackName" [
    "Description" =: Str "Name of an active CloudFormation stack that contains the networking resources, such as the vpc and network subnet and that will be used in this stack.";
    "Type" =: Str "String";
    "MinLength" =: Str "1";
    "MaxLength" =: Str "255";
    "AllowedPattern" =: Str "^[a-zA-Z][-a-zA-Z0-9]*$"].

Definition sg_name_param : AWSObject :=
  Parameter_ "SecurityGroupName" [
    "Description" =: Str "Name of security group that will be attached to the Application Load Balancer.";
    "Type" =: Str "List<AWS::EC2::SecurityGroup::Id>"].

Definition db_broker_stackname_param : AWSObject :=
  Parameter_ "DBBrokerStackName" [
    "Description" =: Str "Name of an active CloudFormation stack that contains DB-Broker instances, that will be used in this stack.";
    "Type" =: Str "String";
    "MinLength" =: Str "1";
    "MaxLength" =: Str "255";
    "AllowedPattern" =: Str "^[a-zA-Z][-a-zA-Z0-9]*$"].

Definition api_listener_cert_arn : AWSObject :=
  Parameter_ "APIListenerCert" [
    "Description" =: Str "ARN of the certificate to be used in API listener.";
    "Type" =: Str "String";
    "MinLength" =: Str "1";
    "MaxLength" =: Str "255"].

Definition api_load_balancer : AWSObject :=
  LoadBalancer "APILoadBalancer" [
    "Name" =: Join "-" [ref_stack_name; Str "api"];
    "IpAddressType" =: Str "ipv4";
    "LoadBalancerAttributes" =: Lst [
      LoadBalancerAttributes [
        "Key" =: Str "deletion_protection.enabled";
        "Value" =: Str "true"]];
    "Scheme" =: Str "internet-facing";
    "SecurityGroups" =: Ref (getdata sg_name_param);
    "Subnets" =: Lst [
      ImportValue (Join "-" [Ref (getdata vpc_stackname_param); Str "publicsubnet1"]);
      ImportValue (Join "-" [Ref (getdata vpc_stackname_param); Str "publicsubnet2"]);
      ImportValue (Join "-" [Ref (getdata vpc_stackname_param); Str "publicsubnet3"])];
    "Type" =: Str "application";
    "Tags" =: Tags ["Application" =: ref_stack_name]].

Definition mq_load_balancer : AWSObject :=
  LoadBalancer "MQLoadBalancer" [
    "Name" =: Join "-" [ref_stack_name; Str "mq"];
    "IpAddressType" =: Str "ipv4";
    "LoadBalancerAttributes" =: Lst [
      LoadBalancerAttributes [
        "Key" =: Str "deletion_protection.enabled";
        "Value" =: Str "true"];
      LoadBalancerAttributes [
        "Key" =: Str "load_balancing.cross_zone.enabled";
        "Value" =: Str "true"]];
    "Scheme" =: Str "internal";
    "Subnets" =: Lst [
      ImportValue (Join "-" [Ref (getdata vpc_stackname_param); Str "publicsubnet1"]);
      ImportValue (Join "-" [Ref (getdata vpc_stackname_param); Str "publicsubnet2"]);
      ImportValue (Join "-" [Ref (getdata vpc_stackname_param); Str "publicsubnet3"])];
    "Type" =: Str "network";
    "Tags" =: Tags ["Application" =: ref_stack_name]].

Definition api_target_group : AWSObject :=
  TargetGroup "APITargetGroup" [
    "Name" =: Join "-" [ref_stack_name; Str "api-tg"];
    "Port" =: Int 80;
    "Protocol" =: Str "HTTP";
    "HealthCheckEnabled" =: Bool true;
    "HealthCheckProtocol" =: Str "HTTP";
    "HealthCheckPath" =: Str "/greetings";
    "HealthCheckPort" =: Str "traffic-port";
    "HealthyThresholdCount" =: Int 2;
    "UnhealthyThresholdCount" =: Int 2;
    "HealthCheckTimeoutSeconds" =: Int 2;
    "HealthCheckIntervalSeconds" =: Int 5;
    "Matcher" =: Matcher ["HttpCode" =: Str "200"];
    "TargetType" =: Str "instance";
    "VpcId" =: ImportValue (Join "-" [Ref (getdata vpc_stackname_param); Str "id"]);
    "Tags" =: Tags ["Application" =: ref_stack_name]].

Definition mq_target_group : AWSObject :=
  TargetGroup "MQTargetGroup" [
    "Name" =: Join "-" [ref_stack_name; Str "mq-tg"];
    "Port" =: Int 5672;
    "Protocol" =: Str "TCP";
    "HealthCheckEnabled" =: Bool true;
    "HealthCheckProtocol" =: Str "TCP";
    "HealthCheckPort" =: Str "traffic-port";
    "HealthyThresholdCount" =: Int 3;
    "UnhealthyThresholdCount" =: Int 3;
    "HealthCheckTimeoutSeconds" =: Int 10;
    "HealthCheckIntervalSeconds" =: Int 30;
    "Targets" =: Lst [
      TargetDescription [
        "Id" =: ImportValue (Join "-" [Ref (getdata db_broker_stackname_param); Str "instance-1"]);
        "Port" =: Int 5672];
      TargetDescription [
        "Id" =: ImportValue (Join "-" [Ref (getdata db_broker_stackname_param); Str "instance-2"]);
        "Port" =: Int 5672];
      TargetDescription [
        "Id" =: ImportValue (Join "-" [Ref (getdata db_broker_stackname_param); Str "instance-3"]);
        "Port" =: Int 5672]];
    "TargetType" =: Str "instance";
    "VpcId" =: ImportValue (Join "-" [Ref (getdata vpc_stackname_param); Str "id"]);
    "Tags" =: Tags ["Application" =: ref_stack_name]].

Definition mq_ui_target_group : AWSObject :=
  TargetGroup "MQUITargetGroup" [
    "Name" =: Join "-" [ref_stack_name; Str "mq-ui-tg"];
    "Port" =: Int 80;
    "Protocol" =: Str "HTTP";
    "HealthCheckEnabled" =: Bool true;
    "HealthCheckProtocol" =: Str "HTTP";
    "HealthCheckPort" =: Str "traffic-port";
    "HealthyThresholdCount" =: Int 3;
    "UnhealthyThresholdCount" =: Int 3;
    "HealthCheckTimeoutSeconds" =: Int 10;
    "HealthCheckIntervalSeconds" =: Int 30;
    "Targets" =: Lst [
      TargetDescription [
        "Id" =: ImportValue (Join "-" [Ref (getdata db_broker_stackname_param); Str "instance-1"]);
        "Port" =: Int 80];
      TargetDescription [
        "Id" =: ImportValue (Join "-" [Ref (getdata db_broker_stackname_param); Str "instance-2"]);
        "Port" =: Int 80];
      TargetDescription [
        "Id" =: ImportValue (Join "-" [Ref (getdata db_broker_stackname_param); Str "instance-3"]);
        "Port" =: Int 80]];
    "TargetType" =: Str "instance";
    "VpcId" =: ImportValue (Join "-" [Ref (getdata vpc_stackname_param); Str "id"]);
    "Tags" =: Tags ["Application" =: ref_stack_name]].

Definition api_http_listener : AWSObject :=
  Listener "APIHTTPListner" [
    "Port" =: Int 80;
    "Protocol" =: Str "HTTP";
    "LoadBalancerArn" =: Ref (getdata api_load_balancer);
    "DefaultActions" =: Lst [
      Action [
        "Type" =: Str "fixed-response";
        "FixedResponseConfig" =: FixedResponseConfig [
          "ContentType" =: Str "text/plain";
          "MessageBody" =: Str "Page Not Found";
          "StatusCode" =: Str "404"]]]].

Definition api_https_listener : AWSObject :=
  Listener "APIHTTPSListner" [
    "Port" =: Int 443;
    "Protocol" =: Str "HTTPS";
    "Certificates" =: Lst [Certificate ["CertificateArn" =: Ref (getdata api_listener_cert_arn)]];
    "SslPolicy" =: Str "ELBSecurityPolicy-TLS-1-1-2017-01";
    "LoadBalancerArn" =: Ref (getdata api_load_balancer);
    "DefaultActions" =: Lst [
      Action [
        "Type" =: Str "fixed-response";
        "FixedResponseConfig" =: FixedResponseConfig [
          "ContentType" =: Str "text/plain";
          "MessageBody" =: Str "Page Not Found";
          "StatusCode" =: Str "404"]]]].

Definition mq_listener : AWSObject :=
  Listener "MQListner" [
    "Port" =: Int 5672;
    "Protocol" =: Str "TCP";
    "LoadBalancerArn" =: Ref (getdata mq_load_balancer);
    "DefaultActions" =: Lst [
      Action [
        "Type" =: Str "forward";
        "TargetGroupArn" =: Ref (getdata mq_target_group)]]].

Definition api_http_listener_rule : AWSObject :=
  ListenerRule "APIHTTPListenerRule" [
    "ListenerArn" =: Ref (getdata api_http_listener);
    "Conditions" =: Lst [
      Condition [
        "Field" =: Str "host-header";
        "Values" =: Lst [Str "app.acme.com"; Str "api.acme.com"]]];
    "Actions" =: Lst [
      Action [
        "Type" =: Str "redirect";
        "RedirectConfig" =: RedirectConfig [
          "StatusCode" =: Str "HTTP_301";
          "Protocol" =: Str "HTTPS";
          "Port" =: Str "443"]]];
    "Priority" =: Int 1].

Definition api_https_listener_rule : AWSObject :=
  ListenerRule "APIHTTPSRule" [
    "ListenerArn" =: Ref (getdata api_https_listener);
    "Conditions" =: Lst [
      Condition [
        "Field" =: Str "host-header";
        "Values" =: Lst [Str "app.acme.com"; Str "api.acme.com"]]];
    "Actions" =: Lst [
      Action [
        "Type" =: Str "forward";
        "TargetGroupArn" =: Ref (getdata mq_ui_target_group)]];
    "Priority" =: Int 2].

Definition api_load_balancer_output : AWSObject :=
  Output "APILoadBalancer" [
    "Value" =: Ref (getdata api_load_balancer);
    "Description" =: Str "API Load Balancer ID";
    "Export" =: Export_ (Sub "${AWS::StackName}-api")].

Definition api_target_group_output : AWSObject :=
  Output "APITargetGroup" [
    "Value" =: Ref (getdata api_target_group);
    "Description" =: Str "API Target Group Name";
    "Export" =: Export_ (Sub "${AWS::StackName}-api-tg")].

Definition mq_target_group_output : AWSObject :=
  Output "MQTargetGroup" [
    "Value" =: Ref (getdata mq_target_group);
    "Description" =: Str "MQ Target Group Name";
    "Export" =: Export_ (Sub "${AWS::StackName}-mq-tg")].

Definition mq_ui_target_group_output : AWSObject :=
  Output "MQUITargetGroup" [
    "Value" =: Ref (getdata mq_ui_target_group);
    "Description" =: Str "MQ UI Target Group Name";
    "Export" =: Export_ (Sub "${AWS::StackName}-mq-ui-tg")].

Definition api_load_balancer_dns_output : AWSObject :=
  Output "APILoadBalancerDNS" [
    "Value" =: GetAtt (getdata api_load_balancer) "DNSName";
    "Description" =: Str "API Load Balancer DNS name";
    "Export" =: Export_ (Sub "${AWS::StackName}-api-dns")].

Definition mq_load_balancer_dns_output : AWSObject :=
  Output "MQLoadBalancerDNS" [
    "Value" =: GetAtt (getdata mq_load_balancer) "DNSName";
    "Description" =: Str "MQ Load Balancer DNS name";
    "Export" =: Export_ (Sub "${AWS::StackName}-mq-dns")].

(** The calls on [template], in program order. *)
Definition script : list stmt :=
  [ SetVersion "2010-09-09";
    SetDescription "Load balancers for ACME.";
    AddParameter vpc_stackname_param;
    AddParameter sg_name_param;
    AddParameter db_broker_stackname_param;
    AddParameter api_listener_cert_arn;
    AddResource api_load_balancer;
    AddResource mq_load_balancer;
    AddResource api_target_group;
    AddResource mq_target_group;
    AddResource mq_ui_target_group;
    AddResource api_http_listener;
    AddResource api_https_listener;
    AddResource mq_listener;
    AddResource api_http_listener_rule;
    AddResource api_https_listener_rule;
    AddOutput api_load_balancer_output;
    AddOutput api_target_group_output;
    AddOutput mq_target_group_output;
    AddOutput mq_ui_target_group_output;
    AddOutput api_load_balancer_dns_output;
    AddOutput mq_load_balancer_dns_output ].

End LoadBalancers.

(* ===================================================================== *)
(** * [db.py] *)
(* ===================================================================== *)

Module Db.

Definition template_file : string := "templates/db.yaml".

Definition ref_stack_name : value := Ref "AWS::StackName".

Definition ref_region : value := Ref "AWS::Region".

Definition vpc_stackname_param : AWSObject :=
  Parameter_ "VPCStackName" [
    "Description" =: Str "Name of an active CloudFormation stack that contains the networking resources, such as the vpc, subnet and security group, that will be used in this stack.";
    "Type" =: Str "String";
    "MinLength" =: Str "1";
    "MaxLength" =: Str "255";
    "AllowedPattern" =: Str "^[a-zA-Z][-a-zA-Z0-9]*$"].

Definition keyname_param : AWSObject :=
  Parameter_ "KeyName" [
    "Description" =: Str "Name of an existing EC2 KeyPair to enable SSH access to the instance";
    "Type" =: Str "AWS::EC2::KeyPair::KeyName";
    "ConstraintDescription" =: Str "must be the name of an existing EC2 KeyPair."].

Definition db_ami_param : AWSObject :=
  Parameter_ "DBAMI" [
    "Description" =: Str "Name of existing AMI to create the DB instance";
    "Type" =: Str "AWS::EC2::Image::Id";
    "ConstraintDescription" =: Str "must be the name of an existing EC2 AMI."].

Definition db_instancetype_param : AWSObject :=
  Parameter_ "InstanceType" [
    "Description" =: Str "Database EC2 instance type";
    "Type" =: Str "String";
    "Default" =: Str "m3.medium";
    "AllowedValues" =: Lst [
       Str "a1.medium"; Str "a1.large"; Str "a1.xlarge"; Str "a1.2xlarge";
       Str "a1.4xlarge"; Str "m4.large"; Str "m4.xlarge"; Str "m4.2xlarge";
       Str "m4.4xlarge"; Str "m4.10xlarge"; Str "m4.16xlarge"; Str "m5.large";
       Str "m5.xlarge"; Str "m5.2xlarge"; Str "m5.4xlarge"; Str "m5.12xlarge";
       Str "m5.24xlarge"; Str "m5a.large"; Str "m5a.xlarge";
       Str "m5a.2xlarge"; Str "m5a.4xlarge"; Str "m5a.12xlarge";
       Str "m5a.24xlarge"; Str "m5d.large"; Str "m5d.xlarge";
       Str "m5d.2xlarge"; Str "m5d.4xlarge"; Str "m5d.12xlarge";
       Str "m5d.24xlarge"; Str "t2.nano"; Str "t2.micro"; Str "t2.small";
       Str "t2.medium"; Str "t2.large"; Str "t2.xlarge"; Str "t2.2xlarge";
       Str "t3.nano"; Str "t3.micro"; Str "t3.small"; Str "t3.medium";
       Str "t3.large"; Str "t3.xlarge"; Str "t3.2xlarge"; Str "c4.large";
       Str "c4.xlarge"; Str "c4.2xlarge"; Str "c4.4xlarge"; Str "c4.8xlarge";
       Str "c5.large"; Str "c5.xlarge"; Str "c5.2xlarge"; Str "c5.4xlarge";
       Str "c5.9xlarge"; Str "c5.18xlarge"; Str "c5d.xlarge";
       Str "c5d.2xlarge"; Str "c5d.4xlarge"; Str "c5d.9xlarge";
       Str "c5d.18xlarge"; Str "c5n.large"; Str "c5n.xlarge";
       Str "c5n.2xlarge"; Str "c5n.4xlarge"; Str "c5n.9xlarge";
       Str "c5n.18xlarge"; Str "r4.large"; Str "r4.xlarge"; Str "r4.2xlarge";
       Str "r4.4xlarge"; Str "r4.8xlarge"; Str "r4.16xlarge"; Str "r5.large";
       Str "r5.xlarge"; Str "r5.2xlarge"; Str "r5.4xlarge"; Str "r5.12xlarge";
       Str "r5.24xlarge"; Str "r5a.large"; Str "r5a.xlarge";
       Str "r5a.2xlarge"; Str "r5a.4xlarge"; Str "r5a.12xlarge";
       Str "r5a.24xlarge"; Str "r5d.large"; Str "r5d.xlarge";
       Str "r5d.2xlarge"; Str "r5d.4xlarge"; Str "r5d.12xlarge";
       Str "r5d.24xlarge"; Str "x1.16xlarge"; Str "x1.32xlarge";
       Str "x1e.xlarge"; Str "x1e.2xlarge"; Str "x1e.4xlarge";
       Str "x1e.8xlarge"; Str "x1e.16xlarge"; Str "x1e.32xlarge";
       Str "z1d.large"; Str "z1d.xlarge"; Str "z1d.2xlarge";
       Str "z1d.3xlarge"; Str "z1d.6xlarge"; Str "z1d.12xlarge";
       Str "d2.xlarge"; Str "d2.2xlarge"; Str "d2.4xlarge"; Str "d2.8xlarge";
       Str "h1.2xlarge"; Str "h1.4xlarge"; Str "h1.8xlarge";
       Str "h1.16xlarge"; Str "i3.large"; Str "i3.xlarge"; Str "i3.2xlarge";
       Str "i3.4xlarge"; Str "i3.8xlarge"; Str "i3.16xlarge";
       Str "f1.2xlarge"; Str "f1.4xlarge"; Str "f1.16xlarge";
       Str "g3s.xlarge"; Str "g3.4xlarge"; Str "g3.8xlarge";
       Str "g3.16xlarge"; Str "p2.xlarge"; Str "p2.8xlarge";
       Str "p2.16xlarge"; Str "p3.2xlarge"; Str "p3.8xlarge";
       Str "p3.16xlarge"; Str "p3dn.24xlarge"; Str "m1.small";
       Str "m1.medium"; Str "m1.large"; Str "m1.xlarge"; Str "m3.medium";
       Str "m3.large"; Str "m3.xlarge"; Str "m3.2xlarge"; Str "c1.medium";
       Str "c1.xlarge"; Str "cc2.8xlarge"; Str "c3.large"; Str "c3.xlarge";
       Str "c3.2xlarge"; Str "c3.4xlarge"; Str "c3.8xlarge"; Str "m2.xlarge";
       Str "m2.2xlarge"; Str "m2.4xlarge"; Str "cr1.8xlarge"; Str "r3.large";
       Str "r3.xlarge"; Str "r3.2xlarge"; Str "r3.4xlarge"; Str "r3.8xlarge";
       Str "hs1.8xlarge"; Str "i2.xlarge"; Str "i2.2xlarge"; Str "i2.4xlarge";
       Str "i2.8xlarge"; Str "g2.2xlarge"; Str "g2.8xlarge"; Str "t1.micro"];
    "ConstraintDescription" =: Str "must be a valid EC2 instance type."].

Definition sg_name_param : AWSObject :=
  Parameter_ "SecurityGroupName" [
    "Description" =: Str "Name of security group that will be attached to the Database server.";
    "Type" =: Str "List<AWS::EC2::SecurityGroup::Id>"].

Definition db_instance_1 : AWSObject :=
  Instance_ "DBServer1" [
    "ImageId" =: Ref (getdata db_ami_param);
    "InstanceType" =: Ref (getdata db_instancetype_param);
    "KeyName" =: Ref (getdata keyname_param);
    "SubnetId" =: ImportValue (Join "-" [Ref (getdata vpc_stackname_param); Str "privatesubnet1"]);
    "SecurityGroupIds" =: Ref (getdata sg_name_param);
    "Tags" =: Tags [
      "Application" =: ref_stack_name;
      "Name" =: Join "-" [ref_stack_name; Str "instance-1"]]].

Definition db_instance_2 : AWSObject :=
  Instance_ "DBServer2" [
    "ImageId" =: Ref (getdata db_ami_param);
    "InstanceType" =: Ref (getdata db_instancetype_param);
    "KeyName" =: Ref (getdata keyname_param);
    "SubnetId" =: ImportValue (Join "-" [Ref (getdata vpc_stackname_param); Str "privatesubnet2"]);
    "SecurityGroupIds" =: Ref (getdata sg_name_param);
    "Tags" =: Tags [
      "Application" =: ref_stack_name;
      "Name" =: Join "-" [ref_stack_name; Str "instance-2"]]].

Definition db_instance_3 : AWSObject :=
  Instance_ "DBServer3" [
    "ImageId" =: Ref (getdata db_ami_param);
    "InstanceType" =: Ref (getdata db_instancetype_param);
    "KeyName" =: Ref (getdata keyname_param);
    "SubnetId" =: ImportValue (Join "-" [Ref (getdata vpc_stackname_param); Str "privatesubnet3"]);
    "SecurityGroupIds" =: Ref (getdata sg_name_param);
    "Tags" =: Tags [
      "Application" =: ref_stack_name;
      "Name" =: Join "-" [ref_stack_name; Str "instance-3"]]].

Definition db_instance_1_output : AWSObject :=
  Output "DBServer1" [
    "Value" =: Ref (getdata db_instance_1);
    "Description" =: Str "DB Instance ID";
    "Export" =: Export_ (Sub "${AWS::StackName}-instance-1")].

Definition db_instance_2_output : AWSObject :=
  Output "DBServer2" [
    "Value" =: Ref (getdata db_instance_2);
    "Description" =: Str "DB Instance ID";
    "Export" =: Export_ (Sub "${AWS::StackName}-instance-2")].

Definition db_instance_3_output : AWSObject :=
  Output "DBServer3" [
    "Value" =: Ref (getdata db_instance_3);
    "Description" =: Str "DB Instance ID";
    "Export" =: Export_ (Sub "${AWS::StackName}-instance-3")].

(** The calls on [template], in program order. *)
Definition script : list stmt :=
  [ SetVersion "2010-09-09";
    SetDescription "Setup DB servers for ACME.";
    AddParameter vpc_stackname_param;
    AddParameter keyname_param;
    AddParameter db_ami_param;
    AddParameter db_instancetype_param;
    AddParameter sg_name_param;
    AddResource db_instance_1;
    AddResource db_instance_2;
    AddResource db_instance_3;
    AddOutput db_instance_1_output;
    AddOutput db_instance_2_output;
    AddOutput db_instance_3_output ].

End Db.

(* ===================================================================== *)
(** * [api-asg.py] *)
(* ===================================================================== *)

Module ApiAsg.

Definition datestr (now : datetime) : string := strftime now "%Y%m%d".

Definition template_file : string := "templates/api-asg.yaml".

Definition ref_stack_name : value := Ref "AWS::StackName".

Definition ref_region : value := Ref "AWS::Region".

Definition api_ami_param : AWSObject :=
  Parameter_ "APIAMIID" [
    "Description" =: Str "AMI ID to be used for launching API server.";
    "Type" =: Str "AWS::EC2::Image::Id"].

Definition api_iam_profile_param : AWSObject :=
  Parameter_ "APIInstanceIAMProfile" [
    "Description" =: Str "IAM Instance profile for API server.";
    "Type" =: Str "String";
    "MinLength" =: Str "1"].

Definition api_instance_type_param : AWSObject :=
  Parameter_ "InstanceType" [
    "Description" =: Str "API server EC2 instance type";
    "Type" =: Str "String";
    "Default" =: Str "m3.medium";
    "AllowedValues" =: Lst [
       Str "a1.medium"; Str "a1.large"; Str "a1.xlarge"; Str "a1.2xlarge";
       Str "a1.4xlarge"; Str "m4.large"; Str "m4.xlarge"; Str "m4.2xlarge";
       Str "m4.4xlarge"; Str "m4.10xlarge"; Str "m4.16xlarge"; Str "m5.large";
       Str "m5.xlarge"; Str "m5.2xlarge"; Str "m5.4xlarge"; Str "m5.12xlarge";
       Str "m5.24xlarge"; Str "m5a.large"; Str "m5a.xlarge";
       Str "m5a.2xlarge"; Str "m5a.4xlarge"; Str "m5a.12xlarge";
       Str "m5a.24xlarge"; Str "m5d.large"; Str "m5d.xlarge";
       Str "m5d.2xlarge"; Str "m5d.4xlarge"; Str "m5d.12xlarge";
       Str "m5d.24xlarge"; Str "t2.nano"; Str "t2.micro"; Str "t2.small";
       Str "t2.medium"; Str "t2.large"; Str "t2.xlarge"; Str "t2.2xlarge";
       Str "t3.nano"; Str "t3.micro"; Str "t3.small"; Str "t3.medium";
       Str "t3.large"; Str "t3.xlarge"; Str "t3.2xlarge"; Str "c4.large";
       Str "c4.xlarge"; Str "c4.2xlarge"; Str "c4.4xlarge"; Str "c4.8xlarge";
       Str "c5.large"; Str "c5.xlarge"; Str "c5.2xlarge"; Str "c5.4xlarge";
       Str "c5.9xlarge"; Str "c5.18xlarge"; Str "c5d.xlarge";
       Str "c5d.2xlarge"; Str "c5d.4xlarge"; Str "c5d.9xlarge";
       Str "c5d.18xlarge"; Str "c5n.large"; Str "c5n.xlarge";
       Str "c5n.2xlarge"; Str "c5n.4xlarge"; Str "c5n.9xlarge";
       Str "c5n.18xlarge"; Str "r4.large"; Str "r4.xlarge"; Str "r4.2xlarge";
       Str "r4.4xlarge"; Str "r4.8xlarge"; Str "r4.16xlarge"; Str "r5.large";
       Str "r5.xlarge"; Str "r5.2xlarge"; Str "r5.4xlarge"; Str "r5.12xlarge";
       Str "r5.24xlarge"; Str "r5a.large"; Str "r5a.xlarge";
       Str "r5a.2xlarge"; Str "r5a.4xlarge"; Str "r5a.12xlarge";
       Str "r5a.24xlarge"; Str "r5d.large"; Str "r5d.xlarge";
       Str "r5d.2xlarge"; Str "r5d.4xlarge"; Str "r5d.12xlarge";
       Str "r5d.24xlarge"; Str "x1.16xlarge"; Str "x1.32xlarge";
       Str "x1e.xlarge"; Str "x1e.2xlarge"; Str "x1e.4xlarge";
       Str "x1e.8xlarge"; Str "x1e.16xlarge"; Str "x1e.32xlarge";
       Str "z1d.large"; Str "z1d.xlarge"; Str "z1d.2xlarge";
       Str "z1d.3xlarge"; Str "z1d.6xlarge"; Str "z1d.12xlarge";
       Str "d2.xlarge"; Str "d2.2xlarge"; Str "d2.4xlarge"; Str "d2.8xlarge";
       Str "h1.2xlarge"; Str "h1.4xlarge"; Str "h1.8xlarge";
       Str "h1.16xlarge"; Str "i3.large"; Str "i3.xlarge"; Str "i3.2xlarge";
       Str "i3.4xlarge"; Str "i3.8xlarge"; Str "i3.16xlarge";
       Str "f1.2xlarge"; Str "f1.4xlarge"; Str "f1.16xlarge";
       Str "g3s.xlarge"; Str "g3.4xlarge"; Str "g3.8xlarge";
       Str "g3.16xlarge"; Str "p2.xlarge"; Str "p2.8xlarge";
       Str "p2.16xlarge"; Str "p3.2xlarge"; Str "p3.8xlarge";
       Str "p3.16xlarge"; Str "p3dn.24xlarge"; Str "m1.small";
       Str "m1.medium"; Str "m1.large"; Str "m1.xlarge"; Str "m3.medium";
       Str "m3.large"; Str "m3.xlarge"; Str "m3.2xlarge"; Str "c1.medium";
       Str "c1.xlarge"; Str "cc2.8xlarge"; Str "c3.large"; Str "c3.xlarge";
       Str "c3.2xlarge"; Str "c3.4xlarge"; Str "c3.8xlarge"; Str "m2.xlarge";
       Str "m2.2xlarge"; Str "m2.4xlarge"; Str "cr1.8xlarge"; Str "r3.large";
       Str "r3.xlarge"; Str "r3.2xlarge"; Str "r3.4xlarge"; Str "r3.8xlarge";
       Str "hs1.8xlarge"; Str "i2.xlarge"; Str "i2.2xlarge"; Str "i2.4xlarge";
       Str "i2.8xlarge"; Str "g2.2xlarge"; Str "g2.8xlarge"; Str "t1.micro"];
    "ConstraintDescription" =: Str "must be a valid EC2 instance type."].

Definition keyname_param : AWSObject :=
  Parameter_ "KeyName" [
    "Description" =: Str "Name of an existing EC2 KeyPair to enable SSH access to the instance";
    "Type" =: Str "AWS::EC2::KeyPair::KeyName";
    "ConstraintDescription" =: Str "must be the name of an existing EC2 KeyPair."].

Definition sg_name_param : AWSObject :=
  Parameter_ "SecurityGroupName" [
    "Description" =: Str "Name of security group that will be attached to the API instance.";
    "Type" =: Str "List<AWS::EC2::SecurityGroup::Id>"].

Definition vpc_stackname_param : AWSObject :=
  Parameter_ "VPCStackName" [
    "Description" =: Str "Name of an active CloudFormation stack that contains the networking resources, such as the vpc, subnet and security group, that will be used in this stack.";
    "Type" =: Str "String";
    "MinLength" =: Str "1";
    "MaxLength" =: Str "255";
    "AllowedPattern" =: Str "^[a-zA-Z][-a-zA-Z0-9]*$"].

Definition lb_stackname_param : AWSObject :=
  Parameter_ "LoadBalancerStackName" [
    "Description" =: Str "Name of an active CloudFormation stack that contains load balancers, that will be used in this stack.";
    "Type" =: Str "String";
    "MinLength" =: Str "1";
    "MaxLength" =: Str "255";
    "AllowedPattern" =: Str "^[a-zA-Z][-a-zA-Z0-9]*$"].

Definition launch_configuration (datestr : string) : AWSObject :=
  LaunchConfiguration "LaunchConfiguration" [
    "AssociatePublicIpAddress" =: Bool true;
    "BlockDeviceMappings" =: Lst [
      BlockDeviceMapping [
        "DeviceName" =: Str "/dev/sda1";
        "Ebs" =: EBSBlockDevice ["VolumeSize" =: Int 30; "VolumeType" =: Str "standard"]]];
    "EbsOptimized" =: Bool false;
    "IamInstanceProfile" =: Ref (getdata api_iam_profile_param);
    "ImageId" =: Ref (getdata api_ami_param);
    "InstanceMonitoring" =: Bool false;
    "InstanceType" =: Ref (getdata api_instance_type_param);
    "KeyName" =: Ref (getdata keyname_param);
    "LaunchConfigurationName" =: Join "-" [ref_stack_name; Str (format "lc-{}" datestr)];
    "SecurityGroups" =: Ref (getdata sg_name_param);
    "UserData" =: Base64 (Join "" [
       Str ("#!/bin/bash" ++ nl); Str ("apt-get -y update" ++ nl);
       Str ("apt-get -y install ruby" ++ nl);
       Str ("apt-get -y install wget" ++ nl); Str ("cd /home/ubuntu" ++ nl);
       Str "wget https://";
       Str ("aws-codedeploy-us-west-2.s3.amazonaws.com/latest/install" ++ nl);
       Str ("chmod +x ./install" ++ nl); Str ("./install auto" ++ nl);
       Str ("service codedeploy-agent start" ++ nl ++ nl);
       Str ("# Deploy ACME UI." ++ nl);
       Str "aws deploy create-deployment --region us-west-2";
       Str " --application-name acme-ui";
       Str " --deployment-group-name staging";
       Str (" --update-outdated-instances-only" ++ nl ++ nl);
       Str ("sleep 600" ++ nl ++ nl); Str ("# Deploy API framework." ++ nl);
       Str "aws deploy create-deployment --region us-west-2";
       Str " --application-name acme-api-framework";
       Str " --deployment-group-name staging";
       Str (" --update-outdated-instances-only" ++ nl ++ nl);
       Str ("sleep 600" ++ nl ++ nl)])].

Definition api_auto_scaling_group (datestr : string) : AWSObject :=
  AutoScalingGroup "APIAutoScalingGroup" [
    "AutoScalingGroupName" =: ref_stack_name;
    "AvailabilityZones" =: Lst [
      Select 0 (GetAZs (ref_region));
      Select 1 (GetAZs (ref_region));
      Select 2 (GetAZs (ref_region))];
    "DesiredCapacity" =: Str "3";
    "HealthCheckGracePeriod" =: Int 300;
    "HealthCheckType" =: Str "EC2";
    "LaunchConfigurationName" =: Ref (getdata (launch_configuration datestr));
    "MaxSize" =: Str "3";
    "MinSize" =: Str "3";
    "TargetGroupARNs" =: Lst [ImportValue (Join "-" [Ref (getdata lb_stackname_param); Str "api-tg"])];
    "TerminationPolicies" =: Lst [Str "NewestInstance"];
    "Tags" =: Lst [
      Tag "Application" (ref_stack_name) true;
      Tag "Name" (Join "-" [ref_stack_name; Str "autoscaled"]) true];
    "VPCZoneIdentifier" =: Lst [
      ImportValue (Join "-" [Ref (getdata vpc_stackname_param); Str "publicsubnet1"]);
      ImportValue (Join "-" [Ref (getdata vpc_stackname_param); Str "publicsubnet2"]);
      ImportValue (Join "-" [Ref (getdata vpc_stackname_param); Str "publicsubnet3"])]].

(** The calls on [template], in program order. *)
Definition script (datestr : string) : list stmt :=
  [ SetVersion "2010-09-09";
    SetDescription "Auto Scaling group for ACME.";
    AddParameter api_ami_param;
    AddParameter api_iam_profile_param;
    AddParameter api_instance_type_param;
    AddParameter keyname_param;
    AddParameter sg_name_param;
    AddParameter vpc_stackname_param;
    AddParameter lb_stackname_param;
    AddResource (launch_configuration datestr);
    AddResource (api_auto_scaling_group datestr) ].

End ApiAsg.

(* ===================================================================== *)
(** * The five programs *)
(* ===================================================================== *)

Inductive program : Type :=
| VpcPy
| SecurityGroupsPy
| LoadBalancersPy
| DbPy
| ApiAsgPy.

Definition programs : list program :=
  [VpcPy; SecurityGroupsPy; LoadBalancersPy; DbPy; ApiAsgPy].

Definition program_eqb (p q : program) : bool :=
  match p, q with
  | VpcPy, VpcPy | SecurityGroupsPy, SecurityGroupsPy
  | LoadBalancersPy, LoadBalancersPy | DbPy, DbPy | ApiAsgPy, ApiAsgPy => true
  | _, _ => false
  end.

(** The [template.*] calls of a program.  Only [api-asg.py] reads the
    clock. *)
Definition statements (p : program) (now : datetime) : list stmt :=
  match p with
  | VpcPy => Vpc.script
  | SecurityGroupsPy => SecurityGroups.script
  | LoadBalancersPy => LoadBalancers.script
  | DbPy => Db.script
  | ApiAsgPy => ApiAsg.script (ApiAsg.datestr now)
  end.

Definition template_file (p : program) : string :=
  match p with
  | VpcPy => Vpc.template_file
  | SecurityGroupsPy => SecurityGroups.template_file
  | LoadBalancersPy => LoadBalancers.template_file
  | DbPy => Db.template_file
  | ApiAsgPy => ApiAsg.template_file
  end.

(** The [clean_up] argument of the program's [to_yaml] call. *)
Definition clean_up (p : program) : bool :=
  match p with
  | DbPy | ApiAsgPy => true
  | _ => false
  end.

(** The assembly stage: everything a program does before its [try]. *)
Definition assemble (p : program) (now : datetime) : sum exn Template :=
  build (statements p now).

(* ===================================================================== *)
(** * Reading a document *)
(* ===================================================================== *)

(** The variables [${...}] of a [Sub] input string, and its literal
    characters. *)
Inductive piece : Type :=
| Lit (c : ascii)
| Var (name : string).

Fixpoint sub_parse (s : string) (inside : option string) : list piece :=
  match inside, s with
  | None, String "$" (String "{" rest) => sub_parse rest (Some EmptyString)
  | None, String c rest => Lit c :: sub_parse rest None
  | None, EmptyString => []
  | Some n, String "}" rest => Var n :: sub_parse rest None
  | Some n, String c rest => sub_parse rest (Some (n ++ String c EmptyString))
  | Some n, EmptyString => map Lit (list_ascii_of_string ("${" ++ n))
  end.

Definition sub_variables (s : string) : list string :=
  flat_map (fun p => match p with Var n => [n] | Lit _ => [] end) (sub_parse s None).

(** The names a value refers to with [Ref] (also inside composed values and
    [Sub] strings). *)
Fixpoint refs_of (v : value) : list string :=
  match v with
  | Str _ | Int _ | Bool _ | GetAtt _ _ | FindInMap _ _ _ => []
  | Lst l => flat_map refs_of l
  | Obj _ kw => flat_map (fun kv => refs_of (snd kv)) kw
  | Ref d => [d]
  | Join _ vs => flat_map refs_of vs
  | Sub s => sub_variables s
  | ImportValue d => refs_of d
  | Select _ o => refs_of o
  | GetAZs r => refs_of r
  | Base64 d => refs_of d
  | Export_ n => refs_of n
  end.

(** The logical names a value reads an attribute of with [GetAtt]. *)
Fixpoint getatts_of (v : value) : list string :=
  match v with
  | Str _ | Int _ | Bool _ | Ref _ | Sub _ | FindInMap _ _ _ => []
  | Lst l => flat_map getatts_of l
  | Obj _ kw => flat_map (fun kv => getatts_of (snd kv)) kw
  | GetAtt n _ => [n]
  | Join _ vs => flat_map getatts_of vs
  | ImportValue d => getatts_of d
  | Select _ o => getatts_of o
  | GetAZs r => getatts_of r
  | Base64 d => getatts_of d
  | Export_ n => getatts_of n
  end.

(** The name expressions a value imports from other stacks. *)
Fixpoint imports_in (v : value) : list value :=
  match v with
  | Str _ | Int _ | Bool _ | Ref _ | Sub _ | GetAtt _ _ | FindInMap _ _ _ => []
  | Lst l => flat_map imports_in l
  | Obj _ kw => flat_map (fun kv => imports_in (snd kv)) kw
  | Join _ vs => flat_map imports_in vs
  | ImportValue d => d :: imports_in d
  | Select _ o => imports_in o
  | GetAZs r => imports_in r
  | Base64 d => imports_in d
  | Export_ n => imports_in n
  end.

Definition object_refs (o : AWSObject) : list string :=
  flat_map (fun kv => refs_of (snd kv)) (properties o).

Definition object_getatts (o : AWSObject) : list string :=
  flat_map (fun kv => getatts_of (snd kv)) (properties o).

(** The [DependsOn] attribute of a resource: a title or a list of titles. *)
Definition depends_on (o : AWSObject) : list string :=
  match lookup "DependsOn" (properties o) with
  | Some (Str t) => [t]
  | Some (Lst l) => flat_map (fun v => match v with Str t => [t] | _ => [] end) l
  | _ => []
  end.

Definition object_imports (o : AWSObject) : list value :=
  flat_map (fun kv => imports_in (snd kv)) (properties o).

(** The resources and outputs of a document, in that order. *)
Definition body (t : Template) : list AWSObject :=
  map snd (resources t ++ outputs t)%list.

Definition imports_of (t : Template) : list value :=
  flat_map object_imports (body t).

(** The name an output is exported under ([Export=Export(name)]). *)
Definition export_of (o : AWSObject) : option value :=
  match lookup "Export" (properties o) with
  | Some (Export_ n) => Some n
  | _ => None
  end.

Definition exports_of (t : Template) : list value :=
  flat_map (fun kv => match export_of (snd kv) with Some n => [n] | None => [] end)
           (outputs t).

(** The pseudo parameters the scripts refer to; the platform provides
    them to every stack. *)
Definition pseudo_parameters : list string :=
  ["AWS::Region"; "AWS::StackId"; "AWS::StackName"].

(** ** What a name expression denotes at deployment

    The platform replaces [Ref] by the value bound to the name, [Fn::Join]
    by the joined parts and the variables of [Fn::Sub] by their values. *)
Definition env : Type := string -> option string.

Fixpoint substitute (rho : env) (ps : list piece) : option string :=
  match ps with
  | [] => Some EmptyString
  | Lit c :: rest => option_map (String c) (substitute rho rest)
  | Var n :: rest =>
      match rho n, substitute rho rest with
      | Some x, Some r => Some (x ++ r)
      | _, _ => None
      end
  end.

Fixpoint resolve (rho : env) (v : value) : option string :=
  match v with
  | Str s => Some s
  | Ref d => rho d
  | Join delimiter vs =>
      option_map (String.concat delimiter)
        ((fix all (l : list value) : option (list string) :=
            match l with
            | [] => Some []
            | x :: r =>
                match resolve rho x, all r with
                | Some a, Some b => Some (a :: b)
                | _, _ => None
                end
            end) vs)
  | Sub s => substitute rho (sub_parse s None)
  | _ => None
  end.

(** The environment of a stack deployed under the name [s]. *)
Definition stack_env (s : string) : env :=
  fun x => if String.eqb x "AWS::StackName" then Some s else None.

(** The environment of a document whose parameters are all given the
    value [s] (the name of the stack it imports from). *)
Definition param_env (t : Template) (s : string) : env :=
  fun x => if mem x (keys (parameters t)) then Some s else None.

Definition somes {A : Type} (l : list (option A)) : list A :=
  flat_map (fun o => match o with Some a => [a] | None => [] end) l.

(** The names program [p]'s document exports when deployed as stack [s]. *)
Definition export_names (p : program) (now : datetime) (s : string) : list string :=
  match assemble p now with
  | inr t => somes (map (resolve (stack_env s)) (exports_of t))
  | inl _ => []
  end.

(** The names program [p]'s document imports when its stack-name
    parameters are given the value [s]. *)
Definition import_names (p : program) (now : datetime) (s : string) : list string :=
  match assemble p now with
  | inr t => somes (map (resolve (param_env t s)) (imports_of t))
  | inl _ => []
  end.

(** The import expressions of program [p]'s document, and the name each
    denotes when the stack-name parameters of the document have the value
    [s]. *)
Definition import_exprs (p : program) (now : datetime) : list value :=
  match assemble p now with
  | inr t => imports_of t
  | inl _ => []
  end.

Definition import_name (p : program) (now : datetime) (s : string) (i : value)
  : option string :=
  match assemble p now with
  | inr t => resolve (param_env t s) i
  | inl _ => None
  end.

(* ===================================================================== *)
(** * Emission: the [try] block at the end of every script *)
(* ===================================================================== *)

(** How a write into the open file can fail.  The text goes through the
    buffer of the file object, and the scripts never close the file: the
    interpreter closes it when the [print] call is over and the object is
    dropped.
    - [Raised e reached]: the buffer is flushed during the [print] call
      and the device refuses; [print] raises [e], and [reached] is the part
      of the data that is in the file by then.
    - [Dropped reached]: the [print] call returns; what is still in the
      buffer fails to reach the device when the interpreter closes the
      file, and that error is discarded.  [reached] is the part of the data
      that is in the file. *)
Inductive write_failure : Type :=
| Raised (e : exn) (reached : string)
| Dropped (reached : string).

(** What the operating system decides for one run: the clock, whether
    [open(name, "w")] raises, whether and how the write of some data into
    the open file fails, and the absolute form [os.path.abspath] gives a
    path. *)
Record OS : Type := mkOS {
  datetime_now : datetime;
  open_error : string -> option exn;
  write_error : string -> string -> option write_failure;
  abspath : string -> string
}.

(** What a run leaves behind: the lines printed on the console and the
    contents of the files it opened. *)
Record world : Type := mkworld {
  stdout : list string;
  files : dict string
}.

Definition world_init : world := mkworld [] [].

(** Statements with effects on the world that may raise. *)
Definition io (A : Type) : Type := world -> sum exn A * world.

#[local] Instance Monad_io : Monad io := {
  ret := fun A (a : A) (w : world) => (inr a, w);
  bind := fun A B (m : io A) (f : A -> io B) (w : world) =>
            match m w with
            | (inl e, w') => (inl e, w')
            | (inr a, w') => f a w'
            end
}.

Definition raise_io {A : Type} (e : exn) : io A := fun w => (inl e, w).

(** [try: body / except: handler]. *)
Definition try_except {A : Type} (body : io A) (handler : exn -> io A) : io A :=
  fun w =>
    match body w with
    | (inl e, w') => handler e w'
    | (inr a, w') => (inr a, w')
    end.

(** [print(line)]. *)
Definition print (line : string) : io unit :=
  fun w => (inr tt, mkworld (stdout w ++ [line])%list (files w)).

(** [open(name, "w")]: the file is created or truncated; the open file is
    identified by its name. *)
Definition open_w (os : OS) (name : string) : io string :=
  fun w =>
    match open_error os name with
    | Some e => (inl e, w)
    | None => (inr name, mkworld (stdout w) (dict_set name EmptyString (files w)))
    end.

(** [print(text, file=f)] for a file object that is dropped right after
    the call: the text and a newline go to the end of the file; when the
    write fails only a part of them does, and the call raises only if the
    failure shows during the call. *)
Definition print_file (os : OS) (f : string) (text : string) : io unit :=
  fun w =>
    let old := match lookup f (files w) with Some c => c | None => EmptyString end in
    match write_error os f (text ++ nl) with
    | Some (Raised e reached) =>
        (inl e, mkworld (stdout w) (dict_set f (old ++ reached) (files w)))
    | Some (Dropped reached) =>
        (inr tt, mkworld (stdout w) (dict_set f (old ++ reached) (files w)))
    | None =>
        (inr tt, mkworld (stdout w) (dict_set f (old ++ text ++ nl) (files w)))
    end.

Section Main.

(** The serialiser of the builder library, with its [clean_up] flag. *)
Variable to_yaml : bool -> Template -> string.

(** A whole script: assembly, then
    [try: print(template.to_yaml(), file=open(template_file, "w")); print(...)]
    [except IOError as e: print(...)].
    The arguments of the first [print] are evaluated left to right, the
    serialisation before the [open]. *)
Definition main (p : program) (os : OS) : io unit :=
  match assemble p (datetime_now os) with
  | inl e => raise_io e
  | inr template =>
      try_except
        (let text := to_yaml (clean_up p) template in
         f <- open_w os (template_file p) ;;
         print_file os f text ;;
         print ("Template written to file " ++ abspath os (template_file p)))
        (fun e =>
           if is_IOError e
           then print ("Couldn't open or write to file (" ++ str_exn e ++ ").")
           else raise_io e)
  end.

End Main.

(* ===================================================================== *)
(** * Checks used in the proofs *)
(* ===================================================================== *)

(** The titles a call sequence adds to each section. *)
Definition parameter_titles (ss : list stmt) : list string :=
  flat_map (fun s => match s with AddParameter o => [title o] | _ => [] end) ss.

Definition resource_titles (ss : list stmt) : list string :=
  flat_map (fun s => match s with AddResource o => [title o] | _ => [] end) ss.

Definition output_titles (ss : list stmt) : list string :=
  flat_map (fun s => match s with AddOutput o => [title o] | _ => [] end) ss.

Fixpoint distinct (l : list string) : bool :=
  match l with
  | [] => true
  | x :: rest => negb (mem x rest) && distinct rest
  end.

(** The names an added object refers to: with [Ref] (parameters,
    resources, pseudo parameters), and with [GetAtt] or [DependsOn]
    (resources only). *)
Definition stmt_refs (s : stmt) : list string :=
  match s with
  | AddParameter o | AddResource o | AddOutput o => object_refs o
  | _ => []
  end.

Definition stmt_resource_refs (s : stmt) : list string :=
  match s with
  | AddParameter o | AddResource o | AddOutput o =>
      (object_getatts o ++ depends_on o)%list
  | _ => []
  end.

(** Every name the call refers to is declared in [t]. *)
Definition stmt_scoped (t : Template) (s : stmt) : bool :=
  forallb (fun x => mem x pseudo_parameters
                    || mem x (keys (parameters t))
                    || mem x (keys (resources t)))
          (stmt_refs s)
  && forallb (fun x => mem x (keys (resources t))) (stmt_resource_refs s).

(** Every call of the sequence is scoped in the template the calls before
    it have built, and none of them raises. *)
Fixpoint well_scoped (t : Template) (ss : list stmt) : bool :=
  match ss with
  | [] => true
  | s :: rest =>
      stmt_scoped t s &&
      match runStateT (exec s) t with
      | inr (_, t') => well_scoped t' rest
      | inl _ => false
      end
  end.

(** [y] ends with [x]. *)
Fixpoint drop (n : nat) (s : string) : string :=
  match n, s with
  | S n', String _ rest => drop n' rest
  | _, _ => s
  end.

Definition ends_with (x y : string) : bool :=
  Nat.leb (String.length x) (String.length y)
  && String.eqb (drop (String.length y - String.length x) y) x.

(** One of the two strings ends with the other: the only way two strings
    with these endings can be equal. *)
Definition clash (x y : string) : bool := ends_with x y || ends_with y x.

(** The slot of [api-asg.py]'s document that holds the date, overwritten
    with a fixed value. *)
Definition set_property (name : string) (v : value) (o : AWSObject) : AWSObject :=
  mkobj (title o) (cls o)
        (map (fun kv => if String.eqb (fst kv) name then (fst kv, v) else kv)
             (properties o)).

Definition mask (t : Template) : Template :=
  mkTemplate (version t) (description t) (mappings t) (parameters t)
    (map (fun kv => if String.eqb (fst kv) "LaunchConfiguration"
                    then (fst kv, set_property "LaunchConfigurationName" (Str EmptyString) (snd kv))
                    else kv)
         (resources t))
    (outputs t).

Definition date_slot (t : Template) : option value :=
  match lookup "LaunchConfiguration" (resources t) with
  | Some o => lookup "LaunchConfigurationName" (properties o)
  | None => None
  end.

(** A program's document has at least one cross-stack import and at least
    one exporting output. *)
Definition imports_and_exports (p : program) (now : datetime) : Prop :=
  exists t, assemble p now = inr t /\ imports_of t <> [] /\ exports_of t <> [].

(** The name an output is exported under when its document is deployed as
    stack [s]. *)
Definition exported_as (s : string) (o : AWSObject) : option string :=
  match export_of o with
  | Some n => resolve (stack_env s) n
  | None => None
  end.

(** The default of a parameter is one of its allowed values (when it has
    both). *)
Definition default_allowed (prm : AWSObject) : bool :=
  match lookup "Default" (properties prm), lookup "AllowedValues" (properties prm) with
  | Some (Str d), Some (Lst l) =>
      existsb (fun v => match v with Str a => String.eqb a d | _ => false end) l
  | Some _, Some (Lst _) => false
  | _, _ => true
  end.

(** The document a program assembles (the empty template if the assembly
    raised). *)
Definition document (p : program) (now : datetime) : Template :=
  match assemble p now with
  | inr t => t
  | inl _ => Template_init
  end.

(** A day to run the programs on. *)
Definition a_day : datetime := mkdatetime 2019 6 14.

(** The [AllowedValues] of a parameter (none when it declares no list). *)
Definition allowed_values (prm : AWSObject) : list value :=
  match lookup "AllowedValues" (properties prm) with
  | Some (Lst l) => l
  | _ => []
  end.

(** The text a program hands to [print(..., file=...)]. *)
Definition text (to_yaml : bool -> Template -> string) (p : program) (os : OS) : string :=
  to_yaml (clean_up p) (document p (datetime_now os)).


(** A run in which every file operation succeeds. *)
Definition os_writable : OS :=
  mkOS a_day (fun _ => None) (fun _ _ => None) (fun name => "/srv/cf-stack/" ++ name).

(** A stand-in serialiser for concrete runs. *)
Definition to_yaml_stub (clean : bool) (t : Template) : string :=
  match description t with
  | Some d => "Description: " ++ d
  | None => EmptyString
  end.
(* ===================================================================== *)
(** * Further checks *)
(* ===================================================================== *)

(** The script run twice in a row. *)
Definition main_twice (to_yaml : bool -> Template -> string) (p : program) (os : OS)
  : io unit :=
  main to_yaml p os ;; main to_yaml p os.

(** The confirmation and the diagnostic line of a script. *)
Definition confirmation (p : program) (os : OS) : string :=
  "Template written to file " ++ abspath os (template_file p).

Definition diagnostic (e : exn) : string :=
  "Couldn't open or write to file (" ++ str_exn e ++ ").".

(** The number a string of decimal digits denotes. *)
Fixpoint digits_value_from (acc : nat) (s : string) : nat :=
  match s with
  | EmptyString => acc
  | String c rest => digits_value_from (10 * acc + (nat_of_ascii c - 48)) rest
  end.

Definition digits_value (s : string) : nat := digits_value_from 0 s.

(** An order in which the five stacks can be deployed. *)
Definition deploy_rank (p : program) : nat :=
  match p with
  | VpcPy => 0
  | SecurityGroupsPy => 1
  | DbPy => 2
  | LoadBalancersPy => 3
  | ApiAsgPy => 4
  end.

(** The resources of a document built from class [c]. *)
Definition resources_of_class (c : string) (t : Template) : list AWSObject :=
  filter (fun o => String.eqb (cls o) c) (map snd (resources t)).

(** Property [prop] of [o] is [Ref(target)]. *)
Definition refers_to (prop target : string) (o : AWSObject) : bool :=
  match lookup prop (properties o) with
  | Some (Ref x) => String.eqb x target
  | _ => false
  end.

(** A subnet that maps public addresses on launch. *)
Definition is_public (sn : AWSObject) : bool :=
  match lookup "MapPublicIpOnLaunch" (properties sn) with
  | Some (Bool b) => b
  | _ => false
  end.

(** The associations of class [c] whose [SubnetId] is the subnet [sn]. *)
Definition associations (c : string) (t : Template) (sn : AWSObject) : list AWSObject :=
  filter (refers_to "SubnetId" (title sn)) (resources_of_class c t).

(** The ingress rules of a security group, as keyword arguments. *)
Definition ingress_rules (sg : AWSObject) : list (list (string * value)) :=
  match lookup "SecurityGroupIngress" (properties sg) with
  | Some (Lst l) => flat_map (fun v => match v with Obj _ kw => [kw] | _ => [] end) l
  | _ => []
  end.

(** The [FindInMap] lookups of a value. *)
Fixpoint findinmaps_of (v : value) : list (string * string * string) :=
  match v with
  | Str _ | Int _ | Bool _ | Ref _ | Sub _ | GetAtt _ _ => []
  | Lst l => flat_map findinmaps_of l
  | Obj _ kw => flat_map (fun kv => findinmaps_of (snd kv)) kw
  | Join _ vs => flat_map findinmaps_of vs
  | ImportValue d => findinmaps_of d
  | FindInMap m k1 k2 => [(m, k1, k2)]
  | Select _ o => findinmaps_of o
  | GetAZs r => findinmaps_of r
  | Base64 d => findinmaps_of d
  | Export_ n => findinmaps_of n
  end.

Definition object_findinmaps (o : AWSObject) : list (string * string * string) :=
  flat_map (fun kv => findinmaps_of (snd kv)) (properties o).

(** The entry of the document's mappings a [FindInMap] reads. *)
Definition find_in_map (t : Template) (m k1 k2 : string) : option string :=
  match lookup m (mappings t) with
  | Some top =>
      match lookup k1 top with
      | Some second => lookup k2 second
      | None => None
      end
  | None => None
  end.

(** The [Action(...)] objects of a value, as keyword arguments. *)
Fixpoint actions_in (v : value) : list (list (string * value)) :=
  match v with
  | Lst l => flat_map actions_in l
  | Obj c kw =>
      ((if String.eqb c "Action" then [kw] else [])
         ++ flat_map (fun kv => actions_in (snd kv)) kw)%list
  | _ => []
  end.

Definition object_actions (o : AWSObject) : list (list (string * value)) :=
  flat_map (fun kv => actions_in (snd kv)) (properties o).

(** A date within the range of [datetime.datetime]. *)
Definition valid_date (dt : datetime) : Prop :=
  (1 <= year dt /\ year dt <= 9999) /\
  (1 <= month dt /\ month dt <= 12) /\
  (1 <= day dt /\ day dt <= 31).

(** Another day. *)
Definition next_day : datetime := mkdatetime 2019 6 15.

(** A file system that holds an earlier output and another file. *)
Definition world_with_old_files : world :=
  mkworld [] [("templates/db.yaml", "old text"); ("notes.txt", "keep")].

(** A run whose write raises an exception that is no I/O error. *)
Definition os_encoding_error : OS :=
  mkOS a_day (fun _ => None)
       (fun _ _ => Some (Raised (OtherError "UnicodeEncodeError"
                                            "codec can't encode character")
                                EmptyString))
       (fun name => "/srv/cf-stack/" ++ name).


(** A run under a file-size limit of four characters: the write raises
    during the [print] call, after the first four characters. *)
Definition os_size_limit : OS :=
  mkOS a_day (fun _ => None)
       (fun _ data => Some (Raised (OSError "[Errno 27] File too large")
                                   (substring 0 4 data)))
       (fun name => "/srv/cf-stack/" ++ name).

(** The part of the data that is in the file after a failed write. *)
Definition reached_part (f : write_failure) : string :=
  match f with
  | Raised _ reached => reached
  | Dropped reached => reached
  end.

(** The HTTPS rule of the load balancer's security group, and the action
    of the HTTPS listener rule. *)
Definition alb_https_rule : list (string * value) :=
  nth 1 (ingress_rules SecurityGroups.alb_security_group) [].

Definition https_rule_action : list (string * value) :=
  nth 0 (object_actions LoadBalancers.api_https_listener_rule) [].

(** The titles of every section of a template are pairwise distinct. *)
Definition sections_ok (t : Template) : Prop :=
  NoDup (keys (parameters t)) /\ NoDup (keys (resources t)) /\ NoDup (keys (outputs t)).

(** Every number from the one [d] denotes on, [k] of them, has at least
    [lo] and at most [hi] decimal digits ([d] is a little-endian
    decimal). *)
Fixpoint digits_upto (lo hi k : nat) (d : Decimal.uint) : bool :=
  match k with
  | O => true
  | S k' =>
      Nat.leb lo (Decimal.nb_digits d) && Nat.leb (Decimal.nb_digits d) hi
      && digits_upto lo hi k' (Decimal.Little.succ d)
  end.

(** An output of [t] whose value is the [Ref] of a resource of [t] and
    which is exported, under every stack name, as the stack name, a hyphen
    and a fixed ending. *)
Definition exports_own_resource (t : Template) (o : AWSObject) : Prop :=
  In o (map snd (outputs t)) /\
  exists r ending,
    lookup "Value" (properties o) = Some (Ref r) /\
    In r (keys (resources t)) /\
    forall s, exported_as s o = Some (s ++ "-" ++ ending).

(** The string literals of a value. *)
Fixpoint strings_of (v : value) : list string :=
  match v with
  | Str s | Sub s => [s]
  | Int _ | Bool _ | Ref _ | GetAtt _ _ | FindInMap _ _ _ => []
  | Lst l => flat_map strings_of l
  | Obj _ kw => flat_map (fun kv => strings_of (snd kv)) kw
  | Join _ vs => flat_map strings_of vs
  | ImportValue d => strings_of d
  | Select _ o => strings_of o
  | GetAZs r => strings_of r
  | Base64 d => strings_of d
  | Export_ n => strings_of n
  end.

Definition object_strings (o : AWSObject) : list string :=
  flat_map (fun kv => strings_of (snd kv)) (properties o).

(* ===================================================================== *)
(** * General lemmas *)
(* ===================================================================== *)

Lemma inr_inj {A B : Type} (x y : B) : @inr A B x = inr y -> x = y.
Proof. intros H. injection H as H. exact H. Qed.

Lemma mem_In (x : string) (l : list string) : mem x l = true <-> In x l.
Proof.
  unfold mem. rewrite existsb_exists. split.
  - intros [y [Hy Heq]]. apply String.eqb_eq in Heq. now subst.
  - intros H. exists x. split; [assumption | apply String.eqb_refl].
Qed.

Lemma distinct_NoDup (l : list string) : distinct l = true -> NoDup l.
Proof.
  induction l as [| x rest IH]; simpl; intros H.
  - constructor.
  - apply andb_true_iff in H. destruct H as [Hx Hrest].
    constructor; [| auto].
    intros Hin. apply mem_In in Hin. rewrite Hin in Hx. discriminate.
Qed.

Lemma append_nil_r (s : string) : s ++ "" = s.
Proof. induction s as [| c s IH]; simpl; [reflexivity | now rewrite IH]. Qed.

Lemma length_append (a b : string) :
  String.length (a ++ b) = String.length a + String.length b.
Proof. induction a as [| c a IH]; simpl; [reflexivity | now rewrite IH]. Qed.

Lemma drop_append (a b : string) : drop (String.length a) (a ++ b) = b.
Proof. induction a as [| c a IH]; simpl; [now destruct b | assumption]. Qed.

(** Two equal strings with endings [x] and [y]: the shorter ending is the
    end of the longer one. *)
Lemma append_eq_ends_with (a b x y : string) :
  a ++ x = b ++ y -> String.length x <= String.length y -> ends_with x y = true.
Proof.
  revert b. induction a as [| c a IH]; intros b Heq Hlen.
  - simpl in Heq. subst x. rewrite length_append in Hlen.
    destruct b as [| c b]; [| simpl in Hlen; lia].
    simpl. unfold ends_with. rewrite Nat.leb_refl, Nat.sub_diag. simpl.
    apply String.eqb_refl.
  - destruct b as [| c' b].
    + simpl in Heq. subst y. unfold ends_with.
      apply andb_true_iff. split; [now apply Nat.leb_le |].
      change (String c (a ++ x)) with (String c a ++ x).
      rewrite length_append, Nat.add_sub, drop_append. apply String.eqb_refl.
    + simpl in Heq. injection Heq as _ Heq. now apply (IH b).
Qed.

Lemma append_eq_clash (a b x y : string) : a ++ x = b ++ y -> clash x y = true.
Proof.
  intros Heq. unfold clash. apply orb_true_iff.
  destruct (Nat.le_ge_cases (String.length x) (String.length y)) as [H | H].
  - left. now apply (append_eq_ends_with a b).
  - right. now apply (append_eq_ends_with b a).
Qed.

(** ** The builder *)

Lemma _update_inr (d d' : dict AWSObject) (v : AWSObject) :
  _update d v = inr d' <->
  ~ In (title v) (keys d) /\ d' = (d ++ [(title v, v)])%list.
Proof.
  unfold _update, handle_duplicate_key.
  destruct (mem (title v) (keys d)) eqn:Hmem; split.
  - discriminate.
  - intros [Hnot _]. apply mem_In in Hmem. contradiction.
  - intros H. injection H as <-. split; [| reflexivity].
    intros Hin. apply mem_In in Hin. congruence.
  - intros [_ ->]. reflexivity.
Qed.

Lemma run_from_nil (t : Template) : run_from t [] = inr t.
Proof. reflexivity. Qed.

Lemma run_from_cons (t : Template) (s : stmt) (rest : list stmt) :
  run_from t (s :: rest) =
  match runStateT (exec s) t with
  | inl e => inl e
  | inr (_, t') => run_from t' rest
  end.
Proof.
  unfold run_from. simpl.
  destruct (runStateT (exec s) t) as [e | [u t']]; reflexivity.
Qed.

(** A scoped call sequence runs to the end, and every call in it is
    scoped in the template built by the calls before it. *)
Lemma well_scoped_split (ss pre post : list stmt) (s : stmt) (t0 : Template) :
  well_scoped t0 ss = true ->
  ss = (pre ++ s :: post)%list ->
  exists t, run_from t0 pre = inr t /\ stmt_scoped t s = true.
Proof.
  revert ss t0. induction pre as [| s0 pre IH]; intros ss t0 Hws ->.
  - exists t0. split; [reflexivity |].
    simpl in Hws. now apply andb_true_iff in Hws.
  - simpl in Hws. apply andb_true_iff in Hws. destruct Hws as [_ Hws].
    rewrite run_from_cons.
    destruct (runStateT (exec s0) t0) as [e | [u t']]; [discriminate |].
    now apply (IH (pre ++ s :: post)%list).
Qed.

(** Every program assembles its document without raising. *)
Lemma assemble_total (p : program) (now : datetime) :
  exists t, assemble p now = inr t.
Proof. destruct p; eexists; vm_compute; reflexivity. Qed.

Lemma assemble_document (p : program) (now : datetime) :
  assemble p now = inr (document p now).
Proof.
  unfold document. destruct (assemble_total p now) as [t Ht].
  rewrite Ht. reflexivity.
Qed.

(* ===================================================================== *)
(** * Names within one document *)
(* ===================================================================== *)

(** C10.  Within each document the titles of the parameters are pairwise
    distinct, so are the titles of the resources and the titles of the
    outputs; every [add_*] call therefore passes the duplicate-key check
    of the builder: the assembly returns a template (it raises nothing)
    whose three sections hold exactly the titles added, in order. *)
Theorem names_pairwise_distinct (p : program) (now : datetime) :
  NoDup (parameter_titles (statements p now)) /\
  NoDup (resource_titles (statements p now)) /\
  NoDup (output_titles (statements p now)) /\
  exists t, assemble p now = inr t /\
    keys (parameters t) = parameter_titles (statements p now) /\
    keys (resources t) = resource_titles (statements p now) /\
    keys (outputs t) = output_titles (statements p now).
Proof.
  destruct p;
    (split; [apply distinct_NoDup; vm_compute; reflexivity |]);
    (split; [apply distinct_NoDup; vm_compute; reflexivity |]);
    (split; [apply distinct_NoDup; vm_compute; reflexivity |]);
    eexists; (split; [vm_compute; reflexivity |]);
    repeat split; vm_compute; reflexivity.
Qed.

(** Titles are distinct per section only: [load-balancers.py] gives an
    output the title of a resource. *)
Remark title_shared_across_sections :
  In "APILoadBalancer" (resource_titles LoadBalancers.script) /\
  In "APILoadBalancer" (output_titles LoadBalancers.script).
Proof. split; vm_compute; tauto. Qed.

(** A duplicate title does reach the error branch of the builder. *)
Remark duplicate_title_raises :
  build [AddResource Vpc.vpc; AddResource Vpc.vpc] =
  inl (ValueError ("duplicate key " ++ dquote ++ "VPC" ++ dquote ++ " detected")).
Proof. reflexivity. Qed.

(* ===================================================================== *)
(** * Parameters *)
(* ===================================================================== *)

Lemma parameters_referenced_check (p : program) (now : datetime) :
  match assemble p now with
  | inr t =>
      forallb (fun prm => mem (title prm) (flat_map object_refs (body t)))
              (map snd (parameters t))
  | inl _ => false
  end = true.
Proof. destruct p; vm_compute; reflexivity. Qed.

(** C6.  Every parameter a document declares is the target of a [Ref] in
    one of the resources or outputs of that document. *)
Theorem every_parameter_referenced
  (p : program) (now : datetime) (t : Template) (prm : AWSObject) :
  assemble p now = inr t ->
  In prm (map snd (parameters t)) ->
  In (title prm) (flat_map object_refs (body t)).
Proof.
  intros Hasm Hin.
  pose proof (parameters_referenced_check p now) as Hchk.
  rewrite Hasm in Hchk. rewrite forallb_forall in Hchk.
  apply mem_In. now apply Hchk.
Qed.

Lemma every_parameter_referenced_witness :
  In "APIListenerCert"
     (flat_map object_refs (body (document LoadBalancersPy a_day))).
Proof.
  apply (every_parameter_referenced LoadBalancersPy a_day
           (document LoadBalancersPy a_day) LoadBalancers.api_listener_cert_arn).
  - vm_compute. reflexivity.
  - vm_compute. tauto.
Defined.

Lemma defaults_allowed_check (p : program) (now : datetime) :
  match assemble p now with
  | inr t => forallb default_allowed (map snd (parameters t))
  | inl _ => false
  end = true.
Proof. destruct p; vm_compute; reflexivity. Qed.

(** C9.  Whenever a parameter of one of the five documents declares both
    a [Default] and a list of [AllowedValues], the default is a member of
    the list. *)
Theorem default_among_allowed_values
  (p : program) (now : datetime) (t : Template) (prm : AWSObject)
  (d : value) (allowed : list value) :
  assemble p now = inr t ->
  In prm (map snd (parameters t)) ->
  lookup "Default" (properties prm) = Some d ->
  lookup "AllowedValues" (properties prm) = Some (Lst allowed) ->
  In d allowed.
Proof.
  intros Hasm Hin Hd Ha.
  pose proof (defaults_allowed_check p now) as Hchk.
  rewrite Hasm in Hchk. rewrite forallb_forall in Hchk.
  specialize (Hchk prm Hin). unfold default_allowed in Hchk.
  rewrite Hd, Ha in Hchk.
  destruct d as [d | | | | | | | | | | | | | |]; try discriminate.
  apply existsb_exists in Hchk. destruct Hchk as [v [Hv Heq]].
  destruct v as [a | | | | | | | | | | | | | |]; try discriminate.
  apply String.eqb_eq in Heq. now subst.
Qed.

Lemma default_among_allowed_values_witness :
  In (Str "m3.medium") (allowed_values Db.db_instancetype_param).
Proof.
  apply (default_among_allowed_values DbPy a_day (document DbPy a_day)
           Db.db_instancetype_param (Str "m3.medium")
           (allowed_values Db.db_instancetype_param)).
  - vm_compute. reflexivity.
  - vm_compute. tauto.
  - reflexivity.
  - reflexivity.
Defined.

(** The parameters that declare both are the two [InstanceType]
    parameters, with the default [m3.medium]. *)
Remark parameters_with_default :
  forall now : datetime,
    map (fun p =>
           map title
               (filter (fun prm =>
                          match lookup "Default" (properties prm),
                                lookup "AllowedValues" (properties prm) with
                          | Some (Str "m3.medium"), Some (Lst _) => true
                          | _, _ => false
                          end)
                       (map snd (parameters (document p now)))))
        programs
    = [[]; []; []; ["InstanceType"]; ["InstanceType"]].
Proof. intros now. vm_compute. reflexivity. Qed.

(* ===================================================================== *)
(** * References *)
(* ===================================================================== *)

Lemma statements_well_scoped (p : program) (now : datetime) :
  well_scoped Template_init (statements p now) = true.
Proof. destruct p; vm_compute; reflexivity. Qed.

(** C7.  Take any call [s] of a program and the calls [pre] made before
    it.  The calls before it build a template [t] without raising, and
    every name [s] refers to with [Ref] is a pseudo parameter of the
    platform or the title of a parameter or resource already in [t]; every
    name it refers to with [GetAtt] or [DependsOn] is the title of a
    resource already in [t].  Cross-stack imports are name expressions,
    not references: the [Ref] inside one is to a parameter of the
    document and is covered. *)
Theorem references_declared_earlier
  (p : program) (now : datetime) (pre post : list stmt) (s : stmt) :
  statements p now = (pre ++ s :: post)%list ->
  exists t, build pre = inr t /\
    (forall x, In x (stmt_refs s) ->
       In x pseudo_parameters \/ In x (keys (parameters t)) \/ In x (keys (resources t))) /\
    (forall x, In x (stmt_resource_refs s) -> In x (keys (resources t))).
Proof.
  intros Hsplit.
  destruct (well_scoped_split _ _ _ _ _ (statements_well_scoped p now) Hsplit)
    as [t [Hrun Hsc]].
  exists t. split; [exact Hrun |].
  unfold stmt_scoped in Hsc. apply andb_true_iff in Hsc.
  destruct Hsc as [Hrefs Hres]. rewrite forallb_forall in Hrefs, Hres.
  split.
  - intros x Hx. specialize (Hrefs x Hx).
    apply orb_true_iff in Hrefs. destruct Hrefs as [Hrefs | Hrefs].
    + apply orb_true_iff in Hrefs. destruct Hrefs as [Hrefs | Hrefs].
      * left. now apply mem_In.
      * right. left. now apply mem_In.
    + right. right. now apply mem_In.
  - intros x Hx. apply mem_In. now apply Hres.
Qed.

Lemma references_declared_earlier_witness :
  exists t, build (firstn 14 Vpc.script) = inr t /\
    (forall x, In x (stmt_refs (AddResource Vpc.route_to_internet)) ->
       In x pseudo_parameters \/ In x (keys (parameters t)) \/ In x (keys (resources t))) /\
    (forall x, In x (stmt_resource_refs (AddResource Vpc.route_to_internet)) ->
       In x (keys (resources t))).
Proof.
  apply (references_declared_earlier VpcPy a_day (firstn 14 Vpc.script)
           (skipn 15 Vpc.script) (AddResource Vpc.route_to_internet)).
  reflexivity.
Defined.

(** The reference checked by the witness: [RouteToInternet] depends on
    [AttachGateway] and refers to the gateway and the public route table. *)
Remark route_to_internet_references :
  stmt_refs (AddResource Vpc.route_to_internet) = ["InternetGateway"; "PublicRouteTable"] /\
  stmt_resource_refs (AddResource Vpc.route_to_internet) = ["AttachGateway"].
Proof. split; reflexivity. Qed.

(* ===================================================================== *)
(** * Outputs of [security-groups.py] *)
(* ===================================================================== *)

(** C3.  The document of [security-groups.py] has exactly three outputs.
    Deployed as stack [acme-test] they are exported as
    [acme-test-loadbalancer], [acme-test-api] and [acme-test-database],
    and their values are the [Ref]s of the resources
    [LoadBalancerSecurityGroup], [APIInstanceSecurityGroup] and
    [DBBrokerInstanceSecurityGroup], which are the three security groups
    of the document. *)
Theorem security_groups_outputs (now : datetime) :
  exists t, assemble SecurityGroupsPy now = inr t /\
    map (fun o => (exported_as "acme-test" o, lookup "Value" (properties o)))
        (map snd (outputs t))
    = [ (Some "acme-test-loadbalancer", Some (Ref "LoadBalancerSecurityGroup"));
        (Some "acme-test-api", Some (Ref "APIInstanceSecurityGroup"));
        (Some "acme-test-database", Some (Ref "DBBrokerInstanceSecurityGroup")) ] /\
    map (fun kv => (fst kv, cls (snd kv))) (resources t)
    = [ ("LoadBalancerSecurityGroup", "SecurityGroup");
        ("APIInstanceSecurityGroup", "SecurityGroup");
        ("DBBrokerInstanceSecurityGroup", "SecurityGroup") ].
Proof. eexists. split; [vm_compute; reflexivity |]. split; vm_compute; reflexivity. Qed.

(* ===================================================================== *)
(** * Imports and exports *)
(* ===================================================================== *)

(** C2, as stated, fails: the document of [vpc.py] contains no
    cross-stack import. *)
Lemma vpc_imports_nothing : ~ imports_and_exports VpcPy a_day.
Proof.
  intros [t [Hasm [Himp _]]]. rewrite assemble_document in Hasm.
  apply inr_inj in Hasm. subst t. apply Himp. vm_compute. reflexivity.
Qed.

(** It fails at the other end too: the document of [api-asg.py] declares
    no output. *)
Remark api_asg_exports_nothing : ~ imports_and_exports ApiAsgPy a_day.
Proof.
  intros [t [Hasm [_ Hexp]]]. rewrite assemble_document in Hasm.
  apply inr_inj in Hasm. subst t. apply Hexp. vm_compute. reflexivity.
Qed.

Ltac own_export o r ending :=
  eexists; exists o;
  split; [vm_compute; reflexivity |];
  split; [first [vm_compute; reflexivity | vm_compute; discriminate] |];
  split; [vm_compute; discriminate |];
  split; [vm_compute; solve [repeat (first [left; reflexivity | right])] |];
  exists r, ending;
  split; [vm_compute; reflexivity |];
  split; [vm_compute; solve [repeat (first [left; reflexivity | right])] |];
  intros s; vm_compute; reflexivity.

(** C2, amended.  The documents of [security-groups.py],
    [load-balancers.py] and [db.py] each contain a cross-stack import and
    declare an output that exports the identifier of one of the
    document's own resources (its value is the [Ref] of that resource)
    under the conventional name, the stack name followed by a hyphen and
    a fixed ending; the document of [vpc.py] declares such an output and
    imports nothing; the document of [api-asg.py] contains imports and
    declares no output. *)
Theorem imports_and_exports_by_program (now : datetime) :
  (exists t o, assemble SecurityGroupsPy now = inr t /\
     imports_of t <> [] /\ exports_of t <> [] /\ exports_own_resource t o) /\
  (exists t o, assemble LoadBalancersPy now = inr t /\
     imports_of t <> [] /\ exports_of t <> [] /\ exports_own_resource t o) /\
  (exists t o, assemble DbPy now = inr t /\
     imports_of t <> [] /\ exports_of t <> [] /\ exports_own_resource t o) /\
  (exists t o, assemble VpcPy now = inr t /\
     imports_of t = [] /\ exports_of t <> [] /\ exports_own_resource t o) /\
  (exists t, assemble ApiAsgPy now = inr t /\
     imports_of t <> [] /\ outputs t = []).
Proof.
  split; [own_export SecurityGroups.alb_security_group_output
                     "LoadBalancerSecurityGroup" "loadbalancer" |].
  split; [own_export LoadBalancers.api_load_balancer_output
                     "APILoadBalancer" "api" |].
  split; [own_export Db.db_instance_1_output "DBServer1" "instance-1" |].
  split; [own_export Vpc.vpc_output "VPC" "id" |].
  eexists. split; [vm_compute; reflexivity |].
  split; [vm_compute; discriminate | vm_compute; reflexivity].
Qed.

(** The outputs named in the proof, as the scripts write them. *)
Remark own_exports_in_the_sources :
  map (fun o => (title o, lookup "Value" (properties o), export_of o))
      [SecurityGroups.alb_security_group_output;
       LoadBalancers.api_load_balancer_output;
       Db.db_instance_1_output; Vpc.vpc_output]
  = [ ("LoadBalancerSecurityGroupID", Some (Ref "LoadBalancerSecurityGroup"),
       Some (Sub "${AWS::StackName}-loadbalancer"));
      ("APILoadBalancer", Some (Ref "APILoadBalancer"),
       Some (Sub "${AWS::StackName}-api"));
      ("DBServer1", Some (Ref "DBServer1"),
       Some (Sub "${AWS::StackName}-instance-1"));
      ("VPCID", Some (Ref "VPC"), Some (Sub "${AWS::StackName}-id")) ].
Proof. reflexivity. Qed.

(* ===================================================================== *)
(** * Determinism of the assembly *)
(* ===================================================================== *)

Lemma format_lc (d : string) : format "lc-{}" d = "lc-" ++ d.
Proof. simpl. now rewrite append_nil_r. Qed.

Lemma api_asg_date_slot (d : string) :
  exists t, build (ApiAsg.script d) = inr t /\
    date_slot t = Some (Join "-" [Ref "AWS::StackName"; Str (format "lc-{}" d)]).
Proof. eexists. split; vm_compute; reflexivity. Qed.

Lemma api_asg_masked (d1 d2 : string) :
  exists t1 t2,
    build (ApiAsg.script d1) = inr t1 /\
    build (ApiAsg.script d2) = inr t2 /\
    mask t1 = mask t2.
Proof.
  do 2 eexists.
  split; [vm_compute; reflexivity |].
  split; [vm_compute; reflexivity |].
  vm_compute. reflexivity.
Qed.

(** C4.  Two runs of the assembly stage, at any two times: the documents
    of [vpc.py], [security-groups.py], [load-balancers.py] and [db.py]
    are identical; the two documents of [api-asg.py] are identical once
    the property [LaunchConfigurationName] of the resource
    [LaunchConfiguration] is masked, and that property is the stack name
    joined with [lc-] followed by the date of the run; when the two dates
    are formatted alike the two documents are identical. *)
Theorem assembly_deterministic (now1 now2 : datetime) :
  assemble VpcPy now1 = assemble VpcPy now2 /\
  assemble SecurityGroupsPy now1 = assemble SecurityGroupsPy now2 /\
  assemble LoadBalancersPy now1 = assemble LoadBalancersPy now2 /\
  assemble DbPy now1 = assemble DbPy now2 /\
  (exists t1 t2,
     assemble ApiAsgPy now1 = inr t1 /\
     assemble ApiAsgPy now2 = inr t2 /\
     mask t1 = mask t2 /\
     date_slot t1 =
       Some (Join "-" [Ref "AWS::StackName"; Str ("lc-" ++ strftime now1 "%Y%m%d")]) /\
     date_slot t2 =
       Some (Join "-" [Ref "AWS::StackName"; Str ("lc-" ++ strftime now2 "%Y%m%d")])) /\
  (strftime now1 "%Y%m%d" = strftime now2 "%Y%m%d" ->
   assemble ApiAsgPy now1 = assemble ApiAsgPy now2).
Proof.
  do 4 (split; [unfold assemble, statements; reflexivity |]).
  split.
  - unfold assemble, statements, ApiAsg.datestr.
    generalize (strftime now1 "%Y%m%d") (strftime now2 "%Y%m%d").
    intros d1 d2.
    destruct (api_asg_masked d1 d2) as [t1 [t2 [H1 [H2 Hm]]]].
    exists t1, t2. repeat (split; [assumption |]).
    destruct (api_asg_date_slot d1) as [t1' [H1' Hs1]].
    destruct (api_asg_date_slot d2) as [t2' [H2' Hs2]].
    rewrite format_lc in Hs1, Hs2.
    split; congruence.
  - intros Heq. unfold assemble, statements, ApiAsg.datestr.
    rewrite Heq. reflexivity.
Qed.

(** The date does reach the document: on two different days the
    documents of [api-asg.py] differ. *)
Remark api_asg_depends_on_the_day :
  assemble ApiAsgPy (mkdatetime 2019 6 14) <> assemble ApiAsgPy (mkdatetime 2019 6 15).
Proof. vm_compute. discriminate. Qed.

(* ===================================================================== *)
(** * Emission *)
(* ===================================================================== *)

Lemma lookup_dict_set_same {A : Type} (k : string) (v : A) (d : dict A) :
  lookup k (dict_set k v d) = Some v.
Proof.
  induction d as [| [k' v'] d IH]; simpl.
  - now rewrite String.eqb_refl.
  - destruct (String.eqb k' k) eqn:Hk; simpl; rewrite Hk; [reflexivity | exact IH].
Qed.

Lemma lookup_dict_set_other {A : Type} (k k' : string) (v : A) (d : dict A) :
  k' <> k -> lookup k' (dict_set k v d) = lookup k' d.
Proof.
  intros Hne. induction d as [| [k0 v0] d IH]; simpl.
  - destruct (String.eqb k k') eqn:Hk; [| reflexivity].
    apply String.eqb_eq in Hk. congruence.
  - destruct (String.eqb k0 k) eqn:Hk; simpl.
    + apply String.eqb_eq in Hk. subst k0.
      destruct (String.eqb k k') eqn:Hk'; [| reflexivity].
      apply String.eqb_eq in Hk'. congruence.
    + destruct (String.eqb k0 k'); [reflexivity | exact IH].
Qed.

Lemma dict_set_dict_set {A : Type} (k : string) (v1 v2 : A) (d : dict A) :
  dict_set k v2 (dict_set k v1 d) = dict_set k v2 d.
Proof.
  induction d as [| [k' v'] d IH]; simpl.
  - now rewrite String.eqb_refl.
  - destruct (String.eqb k' k) eqn:Hk; simpl; rewrite Hk; [reflexivity | now rewrite IH].
Qed.

Section EmissionProperties.

Variable to_yaml : bool -> Template -> string.

Lemma main_unfold (p : program) (os : OS) :
  main to_yaml p os =
  try_except
    (f <- open_w os (template_file p) ;;
     print_file os f (text to_yaml p os) ;;
     print ("Template written to file " ++ abspath os (template_file p)))
    (fun e =>
       if is_IOError e
       then print ("Couldn't open or write to file (" ++ str_exn e ++ ").")
       else raise_io e).
Proof.
  unfold main, text, document.
  destruct (assemble_total p (datetime_now os)) as [t Ht].
  rewrite Ht. reflexivity.
Qed.

(** The three ways a run can go, from any world. *)
Lemma main_open_fails (p : program) (os : OS) (w : world) (e : exn) :
  open_error os (template_file p) = Some e ->
  main to_yaml p os w =
    if is_IOError e
    then (inr tt, mkworld (stdout w ++ [diagnostic e])%list (files w))
    else (inl e, w).
Proof.
  intros Ho. rewrite main_unfold.
  unfold try_except, open_w, print_file, print, diagnostic, raise_io.
  cbn [bind Monad_io]. rewrite Ho.
  destruct (is_IOError e); reflexivity.
Qed.

Lemma main_write_fails (p : program) (os : OS) (w : world) (f : write_failure) :
  open_error os (template_file p) = None ->
  write_error os (template_file p) (text to_yaml p os ++ nl) = Some f ->
  main to_yaml p os w =
    match f with
    | Raised e reached =>
        if is_IOError e
        then (inr tt,
              mkworld (stdout w ++ [diagnostic e])%list
                      (dict_set (template_file p) reached (files w)))
        else (inl e,
              mkworld (stdout w) (dict_set (template_file p) reached (files w)))
    | Dropped reached =>
        (inr tt,
         mkworld (stdout w ++ [confirmation p os])%list
                 (dict_set (template_file p) reached (files w)))
    end.
Proof.
  intros Ho Hw. rewrite main_unfold.
  unfold try_except, open_w, print_file, print, diagnostic, confirmation, raise_io.
  cbn [bind Monad_io]. rewrite Ho. cbn [stdout files]. rewrite Hw.
  rewrite lookup_dict_set_same.
  destruct f as [e reached | reached]; cbn [append];
    rewrite dict_set_dict_set; [destruct (is_IOError e) |]; reflexivity.
Qed.

Lemma main_success (p : program) (os : OS) (w : world) :
  open_error os (template_file p) = None ->
  write_error os (template_file p) (text to_yaml p os ++ nl) = None ->
  main to_yaml p os w =
    (inr tt,
     mkworld (stdout w ++ [confirmation p os])%list
             (dict_set (template_file p) (text to_yaml p os ++ nl) (files w))).
Proof.
  intros Ho Hw. rewrite main_unfold.
  unfold try_except, open_w, print_file, print, confirmation. cbn [bind Monad_io].
  rewrite Ho. cbn [stdout files]. rewrite Hw.
  rewrite lookup_dict_set_same, dict_set_dict_set. reflexivity.
Qed.


(** C8.  When [open] and the write succeed, from any state of the console
    and the file system: the script ends normally; the file at the
    program's fixed relative path holds the serialised document followed
    by a newline and nothing else (what the file held before is gone);
    every other file is as it was; the console has exactly one more line,
    the confirmation with the absolute form of that path.  The text is
    the serialisation of the document the program assembles, and the five
    paths are [templates/<name>.yaml]. *)
Theorem template_written_and_confirmed (p : program) (os : OS) (w : world) :
  open_error os (template_file p) = None ->
  write_error os (template_file p) (text to_yaml p os ++ nl) = None ->
  exists w',
    main to_yaml p os w = (inr tt, w') /\
    stdout w' =
      (stdout w ++
         [("Template written to file " ++ abspath os (template_file p))%string])%list /\
    lookup (template_file p) (files w') =
      Some (to_yaml (clean_up p) (document p (datetime_now os)) ++ nl) /\
    (forall name, name <> template_file p ->
       lookup name (files w') = lookup name (files w)) /\
    assemble p (datetime_now os) = inr (document p (datetime_now os)) /\
    map template_file programs =
      ["templates/vpc.yaml"; "templates/security-groups.yaml";
       "templates/load-balancers.yaml"; "templates/db.yaml";
       "templates/api-asg.yaml"].
Proof.
  intros Ho Hw. eexists. split; [apply (main_success p os w Ho Hw) |].
  cbn [stdout files]. split; [reflexivity |]. split; [| split; [| split]].
  - apply lookup_dict_set_same.
  - intros name Hne. now apply lookup_dict_set_other.
  - apply assemble_document.
  - reflexivity.
Qed.

(** An exception that is not an I/O error is not caught. *)
Remark other_exception_escapes (p : program) (os : OS) (name msg : string) :
  open_error os (template_file p) = Some (OtherError name msg) ->
  main to_yaml p os world_init = (inl (OtherError name msg), world_init).
Proof. intros Ho. now rewrite (main_open_fails p os world_init _ Ho). Qed.

End EmissionProperties.



Lemma template_written_and_confirmed_witness :
  exists w',
    main to_yaml_stub DbPy os_writable world_with_old_files = (inr tt, w') /\
    stdout w' = ["Template written to file /srv/cf-stack/templates/db.yaml"] /\
    lookup "templates/db.yaml" (files w')
      = Some ("Description: Setup DB servers for ACME." ++ nl) /\
    (forall name, name <> "templates/db.yaml" ->
       lookup name (files w') = lookup name (files world_with_old_files)) /\
    assemble DbPy a_day = inr (document DbPy a_day) /\
    map template_file programs =
      ["templates/vpc.yaml"; "templates/security-groups.yaml";
       "templates/load-balancers.yaml"; "templates/db.yaml";
       "templates/api-asg.yaml"].
Proof.
  apply (template_written_and_confirmed to_yaml_stub DbPy os_writable
           world_with_old_files); reflexivity.
Defined.

(* ===================================================================== *)
(** * The cross-document contract *)
(* ===================================================================== *)

(** Every exported name is the stack name followed by a fixed ending, and
    every imported name is the value of the stack-name parameter followed
    by a fixed ending. *)
Ltac compute_list H :=
  match type of H with
  | In _ ?l =>
      let l' := eval vm_compute in l in
      let E := fresh "E" in
      assert (E : l = l') by (vm_compute; reflexivity);
      rewrite E in H; clear E; cbn [In] in H
  end.

Lemma export_names_shape (q : program) (now : datetime) (s : string) :
  export_names q now s = map (append s) (export_names q now EmptyString).
Proof. destruct q; vm_compute; reflexivity. Qed.

Lemma import_name_shape (p : program) (now : datetime) (s : string) (i : value) :
  In i (import_exprs p now) ->
  import_name p now s i = option_map (append s) (import_name p now EmptyString i).
Proof.
  intros Hin.
  destruct p; compute_list Hin;
    repeat (destruct Hin as [<- | Hin]; [vm_compute; reflexivity |]);
    exact (False_ind _ Hin).
Qed.

(** An ending that clashes with none of the endings [bs] is not the
    ending of any name made from them. *)
Lemma no_clash_no_match (a : string) (bs : list string) (s s' : string) :
  forallb (fun b => negb (clash a b)) bs = true ->
  ~ In (s ++ a) (map (append s') bs).
Proof.
  intros Hall Hin. apply in_map_iff in Hin. destruct Hin as [b [Heq Hb]].
  rewrite forallb_forall in Hall. specialize (Hall b Hb).
  symmetry in Heq. apply append_eq_clash in Heq. rewrite Heq in Hall. discriminate.
Qed.

(** The program whose document exports the ending [a]: the only one whose
    endings clash with it. *)
Lemma one_exporter
  (p q : program) (now : datetime) (i : value) (a : string) :
  In i (import_exprs p now) ->
  import_name p now EmptyString i = Some a ->
  (forall q', q' <> q ->
     forallb (fun b => negb (clash a b)) (export_names q' now EmptyString) = true) ->
  forall q' s s' n,
    import_name p now s i = Some n -> In n (export_names q' now s') -> q' = q.
Proof.
  intros Hin Ha Hothers q' s s' n Hn Hexp.
  rewrite (import_name_shape p now s i Hin), Ha in Hn. cbn [option_map] in Hn.
  injection Hn as <-.
  rewrite export_names_shape in Hexp.
  destruct (program_eqb q' q) eqn:Heq.
  - clear - Heq. destruct q', q; first [reflexivity | discriminate Heq].
  - exfalso.
    assert (Hne : q' <> q).
    { clear - Heq. intros ->. destruct q; discriminate Heq. }
    exact (no_clash_no_match a _ s s' (Hothers q' Hne) Hexp).
Qed.

Ltac exporter_is q Hin0 :=
  exists q; split; [clear; discriminate |]; split;
  [ intros s; eexists; split;
    [ vm_compute; reflexivity
    | vm_compute; solve [repeat (first [left; reflexivity | right])] ]
  | eapply one_exporter;
    [ exact Hin0
    | vm_compute; reflexivity
    | let q' := fresh "q" in let H := fresh "H" in
      intros q' H; destruct q'; try (exfalso; apply H; reflexivity); clear H;
      vm_compute; reflexivity ] ].

Ltac find_exporter Hin0 :=
  first [ exporter_is VpcPy Hin0 | exporter_is SecurityGroupsPy Hin0
        | exporter_is LoadBalancersPy Hin0 | exporter_is DbPy Hin0
        | exporter_is ApiAsgPy Hin0 ].

Lemma exactly_one_exporter (now : datetime) (p : program) (i : value) :
  In i (import_exprs p now) ->
  exists q, q <> p /\
    (forall s, exists n,
       import_name p now s i = Some n /\ In n (export_names q now s)) /\
    (forall q' s s' n,
       import_name p now s i = Some n -> In n (export_names q' now s') -> q' = q).
Proof.
  intros Hin. pose proof Hin as Hin0.
  destruct p; compute_list Hin;
    repeat (destruct Hin as [<- | Hin]; [find_exporter Hin0 |]);
    exact (False_ind _ Hin).
Qed.

(** C1, as stated, fails in its last clause: [db.py] does not import
    [<stack>-id].  With the stack-name parameter set to [acme-test], the
    name [acme-test-id] is not among the names its document imports. *)
Lemma db_does_not_import_vpc_id :
  ~ In "acme-test-id" (import_names DbPy a_day "acme-test").
Proof.
  vm_compute. intros H.
  destruct H as [H | [H | [H | H]]]; first [discriminate H | exact H].
Qed.

(** C1, amended.  Every name expression a document imports denotes, for
    every value [s] of its stack-name parameter, a name that the document
    of exactly one program exports when deployed as stack [s]; that
    program is another one, and no document of any program, under any
    stack name, exports the same name.  In particular [vpc.py] exports
    [<stack>-id], and [security-groups.py] and [load-balancers.py] import
    it; [db.py] imports [<stack>-privatesubnet1], [<stack>-privatesubnet2]
    and [<stack>-privatesubnet3] and nothing else. *)
Theorem cross_document_names (now : datetime) :
  (forall p i, In i (import_exprs p now) ->
     exists q, q <> p /\
       (forall s, exists n,
          import_name p now s i = Some n /\ In n (export_names q now s)) /\
       (forall q' s s' n,
          import_name p now s i = Some n -> In n (export_names q' now s') -> q' = q)) /\
  (forall s, In (s ++ "-id") (export_names VpcPy now s)) /\
  (forall s, In (s ++ "-id") (import_names SecurityGroupsPy now s)) /\
  (forall s, In (s ++ "-id") (import_names LoadBalancersPy now s)) /\
  (forall s, import_names DbPy now s =
             [s ++ "-privatesubnet1"; s ++ "-privatesubnet2"; s ++ "-privatesubnet3"]).
Proof.
  split; [intros p i; apply exactly_one_exporter |].
  split; [intros s; vm_compute; solve [repeat (first [left; reflexivity | right])] |].
  split; [intros s; vm_compute; solve [repeat (first [left; reflexivity | right])] |].
  split; [intros s; vm_compute; solve [repeat (first [left; reflexivity | right])] |].
  intros s. vm_compute. reflexivity.
Qed.

(** What each document imports and exports, as endings after the stack
    name. *)
Remark contract_table (now : datetime) :
  map (fun p => export_names p now EmptyString) programs =
    [ ["-id"; "-cidr"; "-publicsubnet1"; "-publicsubnet2"; "-publicsubnet3";
       "-privatesubnet1"; "-privatesubnet2"; "-privatesubnet3"];
      ["-loadbalancer"; "-api"; "-database"];
      ["-api"; "-api-tg"; "-mq-tg"; "-mq-ui-tg"; "-api-dns"; "-mq-dns"];
      ["-instance-1"; "-instance-2"; "-instance-3"];
      [] ] /\
  map (fun p => nodup string_dec (import_names p now EmptyString)) programs =
    [ [];
      ["-cidr"; "-id"];
      ["-publicsubnet1"; "-publicsubnet2"; "-publicsubnet3";
       "-instance-1"; "-instance-2"; "-instance-3"; "-id"];
      ["-privatesubnet1"; "-privatesubnet2"; "-privatesubnet3"];
      ["-api-tg"; "-publicsubnet1"; "-publicsubnet2"; "-publicsubnet3"] ].
Proof. split; vm_compute; reflexivity. Qed.

(* ===================================================================== *)
(** * More on emission *)
(* ===================================================================== *)

Section MoreEmission.

Variable to_yaml : bool -> Template -> string.

(** X1.  A successful run started in any state of the file system
    replaces the content of the program's file by the serialised document
    and a newline (whatever the file held before is gone, nothing is
    appended to it), leaves every other file as it was, and adds exactly
    one line, the confirmation, to the console. *)
Theorem run_overwrites_in_place (p : program) (os : OS) (w : world) :
  open_error os (template_file p) = None ->
  write_error os (template_file p) (text to_yaml p os ++ nl) = None ->
  exists w',
    main to_yaml p os w = (inr tt, w') /\
    stdout w' = (stdout w ++ [confirmation p os])%list /\
    lookup (template_file p) (files w') = Some (text to_yaml p os ++ nl) /\
    (forall name, name <> template_file p ->
       lookup name (files w') = lookup name (files w)).
Proof.
  intros Ho Hw. eexists. split; [apply (main_success to_yaml p os w Ho Hw) |].
  cbn [stdout files]. split; [reflexivity |]. split.
  - apply lookup_dict_set_same.
  - intros name Hne. now apply lookup_dict_set_other.
Qed.

(** X2.  Running a script twice in a row, with the same clock reading and
    both runs succeeding, leaves the file system exactly as one run does;
    only the console differs, by a second confirmation line. *)
Theorem rerun_is_idempotent_on_files (p : program) (os : OS) (w : world) :
  open_error os (template_file p) = None ->
  write_error os (template_file p) (text to_yaml p os ++ nl) = None ->
  exists w1 w2,
    main to_yaml p os w = (inr tt, w1) /\
    main_twice to_yaml p os w = (inr tt, w2) /\
    files w2 = files w1 /\
    stdout w2 = (stdout w1 ++ [confirmation p os])%list.
Proof.
  intros Ho Hw. do 2 eexists.
  split; [apply (main_success to_yaml p os w Ho Hw) |].
  unfold main_twice. cbn [bind Monad_io].
  rewrite (main_success to_yaml p os w Ho Hw), (main_success to_yaml p os _ Ho Hw).
  split; [reflexivity |]. cbn [stdout files].
  split; [apply dict_set_dict_set | reflexivity].
Qed.

(** X3.  A failed write, from any state of the file system, with [open]
    having succeeded.  Whatever the failure, the program's file holds
    exactly the part of the text that reached it: [open] truncated the
    file, so what it held before the run is lost; every other file is as
    it was.  When the [print] call raises an I/O error the script ends
    normally with one more console line, the diagnostic; when it raises
    another exception the script ends with that exception and prints
    nothing; when the failure shows only as the interpreter closes the
    file, the script ends normally and prints the confirmation, although
    the file is incomplete. *)
Theorem failed_write_effects (p : program) (os : OS) (w : world) (f : write_failure) :
  open_error os (template_file p) = None ->
  write_error os (template_file p) (text to_yaml p os ++ nl) = Some f ->
  exists r w',
    main to_yaml p os w = (r, w') /\
    lookup (template_file p) (files w') = Some (reached_part f) /\
    (forall name, name <> template_file p ->
       lookup name (files w') = lookup name (files w)) /\
    match f with
    | Raised e _ =>
        if is_IOError e
        then r = inr tt /\ stdout w' = (stdout w ++ [diagnostic e])%list
        else r = inl e /\ stdout w' = stdout w
    | Dropped _ =>
        r = inr tt /\ stdout w' = (stdout w ++ [confirmation p os])%list
    end.
Proof.
  intros Ho Hw. rewrite (main_write_fails to_yaml p os w f Ho Hw).
  destruct f as [e reached | reached]; [destruct (is_IOError e) |];
    do 2 eexists; (split; [reflexivity |]); cbn [stdout files reached_part];
    (split; [apply lookup_dict_set_same |]);
    (split; [intros name Hne; now apply lookup_dict_set_other |]);
    split; reflexivity.
Qed.

(** When [open] itself raises an I/O error, no file changes. *)
Remark failed_open_changes_nothing (p : program) (os : OS) (w : world) (msg : string) :
  open_error os (template_file p) = Some (OSError msg) ->
  main to_yaml p os w =
    (inr tt, mkworld (stdout w ++ [diagnostic (OSError msg)])%list (files w)).
Proof. intros Ho. now rewrite (main_open_fails to_yaml p os w _ Ho). Qed.

(** X4.  The handler catches I/O errors only: any other exception raised
    by [open] or by the write leaves the script as an unhandled
    exception, and nothing is printed. *)
Theorem other_exceptions_propagate
  (p : program) (os : OS) (w : world) (e : exn) (reached : string) :
  is_IOError e = false ->
  open_error os (template_file p) = Some e \/
  (open_error os (template_file p) = None /\
   write_error os (template_file p) (text to_yaml p os ++ nl)
     = Some (Raised e reached)) ->
  exists w', main to_yaml p os w = (inl e, w') /\ stdout w' = stdout w.
Proof.
  intros He [Ho | [Ho Hw]].
  - rewrite (main_open_fails to_yaml p os w e Ho), He.
    eexists. split; reflexivity.
  - rewrite (main_write_fails to_yaml p os w _ Ho Hw), He.
    eexists. split; reflexivity.
Qed.

End MoreEmission.

Lemma run_overwrites_in_place_witness :
  exists w',
    main to_yaml_stub DbPy os_writable world_with_old_files = (inr tt, w') /\
    stdout w' = (stdout world_with_old_files ++ [confirmation DbPy os_writable])%list /\
    lookup (template_file DbPy) (files w') = Some (text to_yaml_stub DbPy os_writable ++ nl) /\
    (forall name, name <> template_file DbPy ->
       lookup name (files w') = lookup name (files world_with_old_files)).
Proof.
  apply (run_overwrites_in_place to_yaml_stub DbPy os_writable world_with_old_files);
    reflexivity.
Defined.

Lemma rerun_is_idempotent_on_files_witness :
  exists w1 w2,
    main to_yaml_stub DbPy os_writable world_with_old_files = (inr tt, w1) /\
    main_twice to_yaml_stub DbPy os_writable world_with_old_files = (inr tt, w2) /\
    files w2 = files w1 /\
    stdout w2 = (stdout w1 ++ [confirmation DbPy os_writable])%list.
Proof.
  apply (rerun_is_idempotent_on_files to_yaml_stub DbPy os_writable world_with_old_files);
    reflexivity.
Defined.

Lemma failed_write_effects_witness :
  exists r w',
    main to_yaml_stub DbPy os_size_limit world_with_old_files = (r, w') /\
    lookup "templates/db.yaml" (files w') = Some "Desc" /\
    (forall name, name <> "templates/db.yaml" ->
       lookup name (files w') = lookup name (files world_with_old_files)) /\
    (r = inr tt /\
     stdout w' = ["Couldn't open or write to file ([Errno 27] File too large)."]).
Proof.
  apply (failed_write_effects to_yaml_stub DbPy os_size_limit world_with_old_files
           (Raised (OSError "[Errno 27] File too large") "Desc"));
    reflexivity.
Defined.

Lemma other_exceptions_propagate_witness :
  exists w',
    main to_yaml_stub VpcPy os_encoding_error world_init =
      (inl (OtherError "UnicodeEncodeError" "codec can't encode character"), w') /\
    stdout w' = stdout world_init.
Proof.
  apply (other_exceptions_propagate to_yaml_stub VpcPy os_encoding_error world_init
           (OtherError "UnicodeEncodeError" "codec can't encode character")
           EmptyString).
  - reflexivity.
  - right. split; reflexivity.
Defined.

(* ===================================================================== *)
(** * The date in the launch-configuration name *)
(* ===================================================================== *)

From Stdlib Require DecimalNat DecimalFacts.

(** ** Decimal digits *)

Lemma digits_value_from_uint (d : Decimal.uint) (acc : nat) :
  digits_value_from acc (NilEmpty.string_of_uint d) = Nat.of_uint_acc d acc.
Proof.
  revert acc.
  induction d as [| d IH | d IH | d IH | d IH | d IH | d IH | d IH | d IH | d IH | d IH];
    intros acc; cbn [NilEmpty.string_of_uint digits_value_from Nat.of_uint_acc];
    [reflexivity | ..];
    rewrite IH; f_equal; rewrite Nat.tail_mul_spec;
    match goal with
    | |- context [nat_of_ascii ?c - 48] =>
        let v := eval vm_compute in (nat_of_ascii c - 48) in
        change (nat_of_ascii c - 48) with v
    end; lia.
Qed.

Lemma digits_value_uint (d : Decimal.uint) :
  digits_value (NilZero.string_of_uint d) = Nat.of_uint d.
Proof.
  unfold digits_value, Nat.of_uint.
  destruct d; [reflexivity | ..]; apply digits_value_from_uint.
Qed.

Lemma zeros_succ (k : nat) :
  String.concat "" (repeat "0" (S k)) = String "0" (String.concat "" (repeat "0" k)).
Proof. destruct k; reflexivity. Qed.

Lemma digits_value_zeros (k : nat) (s : string) :
  digits_value (String.concat "" (repeat "0" k) ++ s) = digits_value s.
Proof.
  induction k as [| k IH]; [reflexivity |].
  rewrite zeros_succ. exact IH.
Qed.

Lemma length_zeros (k : nat) :
  String.length (String.concat "" (repeat "0" k)) = k.
Proof.
  induction k as [| k IH]; [reflexivity |].
  rewrite zeros_succ. cbn [String.length]. now rewrite IH.
Qed.

(** The padded number reads back as the number, for any width. *)
Lemma zpad_value (w n : nat) : digits_value (zpad w n) = n.
Proof.
  unfold zpad. rewrite digits_value_zeros, digits_value_uint.
  apply DecimalNat.Unsigned.of_to.
Qed.

Lemma length_string_of_uint (d : Decimal.uint) :
  String.length (NilEmpty.string_of_uint d) = Decimal.nb_digits d.
Proof.
  induction d; cbn [NilEmpty.string_of_uint String.length Decimal.nb_digits];
    [reflexivity | ..]; now f_equal.
Qed.

Lemma to_lu_add (j a : nat) :
  DecimalNat.Unsigned.to_lu (j + a) =
  Nat.iter j Decimal.Little.succ (DecimalNat.Unsigned.to_lu a).
Proof.
  induction j as [| j IH]; [reflexivity |].
  cbn [Nat.add Nat.iter nat_rect].
  rewrite DecimalNat.Unsigned.to_lu_succ, IH. reflexivity.
Qed.

Lemma digits_upto_spec (lo hi k : nat) (d : Decimal.uint) :
  digits_upto lo hi k d = true ->
  forall j, j < k ->
    lo <= Decimal.nb_digits (Nat.iter j Decimal.Little.succ d) <= hi.
Proof.
  revert d. induction k as [| k IH]; intros d H j Hj; [lia |].
  cbn [digits_upto] in H. apply andb_true_iff in H. destruct H as [Hd Hrest].
  apply andb_true_iff in Hd. destruct Hd as [Hlo Hhi].
  destruct j as [| j].
  - split; now apply Nat.leb_le.
  - rewrite Nat.iter_succ_r. apply (IH _ Hrest). lia.
Qed.

(** The numbers from [a] to [b] have between [lo] and [hi] digits, by a
    run of the successor over that range. *)
Lemma digits_range (lo hi a b n : nat) :
  digits_upto lo hi (S b - a) (DecimalNat.Unsigned.to_lu a) = true ->
  a <= n -> n <= b ->
  lo <= Decimal.nb_digits (DecimalNat.Unsigned.to_lu n) <= hi.
Proof.
  intros H Ha Hb.
  replace n with ((n - a) + a) by lia. rewrite to_lu_add.
  apply (digits_upto_spec lo hi _ _ H). lia.
Qed.

Lemma length_decimal (n : nat) :
  1 <= Decimal.nb_digits (DecimalNat.Unsigned.to_lu n) ->
  String.length (decimal n) = Decimal.nb_digits (DecimalNat.Unsigned.to_lu n).
Proof.
  intros Hn. unfold decimal.
  rewrite DecimalNat.Unsigned.to_uint_alt.
  rewrite <- DecimalFacts.nb_digits_rev in *.
  destruct (Decimal.rev (DecimalNat.Unsigned.to_lu n)) eqn:Hd;
    [cbn [Decimal.nb_digits] in Hn; lia | ..];
    unfold NilZero.string_of_uint; now rewrite length_string_of_uint.
Qed.

Lemma decimal_value (n : nat) : digits_value (decimal n) = n.
Proof.
  unfold decimal. rewrite digits_value_uint.
  apply DecimalNat.Unsigned.of_to.
Qed.

Lemma zpad_length (w n : nat) :
  String.length (decimal n) <= w -> String.length (zpad w n) = w.
Proof.
  intros H. unfold decimal in H. unfold zpad.
  rewrite length_append, length_zeros. lia.
Qed.

(** A number up to 99 padded to two places has two digits. *)
Lemma zpad2_length (n : nat) : n <= 99 -> String.length (zpad 2 n) = 2.
Proof.
  intros Hn. apply zpad_length.
  destruct (digits_range 1 2 0 99 n) as [Hlo Hhi];
    [vm_compute; reflexivity | apply Nat.le_0_l | exact Hn |].
  now rewrite (length_decimal n Hlo).
Qed.


Lemma substring_append_left (a b : string) :
  substring 0 (String.length a) (a ++ b) = a.
Proof.
  induction a as [| c a IH]; simpl.
  - now destruct b.
  - now rewrite IH.
Qed.

Lemma substring_append_right (a b : string) (m : nat) :
  substring (String.length a) m (a ++ b) = substring 0 m b.
Proof. induction a as [| c a IH]; simpl; [reflexivity | exact IH]. Qed.

Lemma append_assoc (a b c : string) : (a ++ b) ++ c = a ++ (b ++ c).
Proof. induction a as [| x a IH]; simpl; [reflexivity | now rewrite IH]. Qed.

Lemma substring_full (a : string) : substring 0 (String.length a) a = a.
Proof.
  rewrite <- (append_nil_r a) at 2. apply substring_append_left.
Qed.

Lemma datestr_parts (now : datetime) :
  ApiAsg.datestr now =
  decimal (year now) ++ zpad 2 (month now) ++ zpad 2 (day now).
Proof.
  cbv [ApiAsg.datestr strftime directive].
  now rewrite append_nil_r.
Qed.

(** The three fields of a string made of a year, a two-digit month and a
    two-digit day, counted from its end. *)
Lemma fields_from_the_end (y m d : string) :
  String.length m = 2 -> String.length d = 2 ->
  let s := y ++ m ++ d in
  String.length s = String.length y + 4 /\
  substring 0 (String.length s - 4) s = y /\
  substring (String.length s - 4) 2 s = m /\
  substring (String.length s - 2) 2 s = d.
Proof.
  intros Lm Ld s.
  assert (Ls : String.length s = String.length y + 4)
    by (unfold s; rewrite !length_append; lia).
  split; [exact Ls |]. rewrite Ls.
  replace (String.length y + 4 - 4) with (String.length y) by lia.
  replace (String.length y + 4 - 2) with (String.length (y ++ m))
    by (rewrite length_append; lia).
  unfold s. split; [apply substring_append_left |]. split.
  - rewrite substring_append_right, <- Lm. apply substring_append_left.
  - rewrite <- append_assoc, substring_append_right, <- Ld.
    apply substring_full.
Qed.

(** Year, month and day read back from the date string. *)
Lemma datestr_reads_back (now : datetime) :
  valid_date now ->
  String.length (ApiAsg.datestr now) = String.length (decimal (year now)) + 4 /\
  digits_value
    (substring 0 (String.length (ApiAsg.datestr now) - 4) (ApiAsg.datestr now))
    = year now /\
  digits_value
    (substring (String.length (ApiAsg.datestr now) - 4) 2 (ApiAsg.datestr now))
    = month now /\
  digits_value
    (substring (String.length (ApiAsg.datestr now) - 2) 2 (ApiAsg.datestr now))
    = day now.
Proof.
  intros [_ [[_ Hm] [_ Hd]]].
  assert (Lm : String.length (zpad 2 (month now)) = 2) by (apply zpad2_length; lia).
  assert (Ld : String.length (zpad 2 (day now)) = 2) by (apply zpad2_length; lia).
  rewrite datestr_parts.
  destruct (fields_from_the_end (decimal (year now)) _ _ Lm Ld)
    as [Ls [Fy [Fm Fd]]].
  rewrite Fy, Fm, Fd.
  split; [exact Ls |].
  split; [apply decimal_value |]. split; apply zpad_value.
Qed.


(** Below the year 1000 the string is shorter than eight characters. *)
Remark datestr_of_an_early_year :
  ApiAsg.datestr (mkdatetime 999 12 31) = "9991231" /\
  ApiAsg.datestr (mkdatetime 1 1 1) = "10101".
Proof. split; vm_compute; reflexivity. Qed.


Lemma datestr_injective (now1 now2 : datetime) :
  valid_date now1 -> valid_date now2 ->
  ApiAsg.datestr now1 = ApiAsg.datestr now2 ->
  year now1 = year now2 /\ month now1 = month now2 /\ day now1 = day now2.
Proof.
  intros H1 H2 Heq.
  destruct (datestr_reads_back now1 H1) as [_ [Y1 [M1 D1]]].
  destruct (datestr_reads_back now2 H2) as [_ [Y2 [M2 D2]]].
  rewrite Heq in Y1, M1, D1. repeat split; congruence.
Qed.

Lemma api_asg_build_injective (d1 d2 : string) :
  build (ApiAsg.script d1) = build (ApiAsg.script d2) -> d1 = d2.
Proof.
  intros Heq.
  destruct (api_asg_date_slot d1) as [t1 [B1 S1]].
  destruct (api_asg_date_slot d2) as [t2 [B2 S2]].
  rewrite B1, B2 in Heq. apply inr_inj in Heq. subst t2.
  rewrite S1 in S2. clear - S2.
  rewrite !format_lc in S2. injection S2 as S2. exact S2.
Qed.

Lemma assemble_api_asg (now : datetime) :
  assemble ApiAsgPy now = build (ApiAsg.script (ApiAsg.datestr now)).
Proof. reflexivity. Qed.

(** X6.  On dates in the range of [datetime] (years 1 to 9999, the year
    written without padding), two runs of [api-asg.py] assemble the same
    document exactly when they run on the same day. *)
Theorem api_asg_same_document_iff_same_day (now1 now2 : datetime) :
  valid_date now1 -> valid_date now2 ->
  (assemble ApiAsgPy now1 = assemble ApiAsgPy now2 <->
   year now1 = year now2 /\ month now1 = month now2 /\ day now1 = day now2).
Proof.
  intros H1 H2. rewrite !assemble_api_asg. split.
  - intros Heq. apply (datestr_injective now1 now2 H1 H2).
    now apply api_asg_build_injective.
  - intros [Hy [Hm Hd]].
    rewrite !datestr_parts, Hy, Hm, Hd. reflexivity.
Qed.

Lemma api_asg_same_document_iff_same_day_witness :
  assemble ApiAsgPy a_day = assemble ApiAsgPy next_day <->
  year a_day = year next_day /\ month a_day = month next_day /\
  day a_day = day next_day.
Proof.
  apply (api_asg_same_document_iff_same_day a_day next_day);
    unfold valid_date; repeat split; apply Nat.leb_le; vm_compute; reflexivity.
Defined.

(* ===================================================================== *)
(** * More on the cross-document contract *)
(* ===================================================================== *)

Lemma import_names_shape (p : program) (now : datetime) (s : string) :
  import_names p now s = map (append s) (import_names p now EmptyString).
Proof. destruct p; vm_compute; reflexivity. Qed.

Lemma append_inv_head (s a b : string) : s ++ a = s ++ b -> a = b.
Proof.
  induction s as [| c s IH]; simpl; intros H; [exact H |].
  injection H as H. now apply IH.
Qed.

Lemma append_inv_tail (a b x : string) : a ++ x = b ++ x -> a = b.
Proof.
  revert b. induction a as [| c a IH]; intros b H.
  - destruct b as [| c' b]; [reflexivity |].
    apply (f_equal String.length) in H. simpl in H.
    rewrite length_append in H. lia.
  - destruct b as [| c' b].
    + apply (f_equal String.length) in H. simpl in H.
      rewrite length_append in H. lia.
    + simpl in H. injection H as Hc H. subst c'. f_equal. now apply IH.
Qed.

Lemma NoDup_map_append (s : string) (l : list string) :
  NoDup l -> NoDup (map (append s) l).
Proof.
  induction 1 as [| a l Hnot Hnd IH]; simpl; constructor; [| exact IH].
  intros Hin. apply in_map_iff in Hin. destruct Hin as [b [Heq Hb]].
  apply append_inv_head in Heq. now subst.
Qed.

(** Two export endings of any two documents clash only when they are the
    same ending. *)
Lemma export_endings_clash (p q : program) (now : datetime) :
  forallb (fun a =>
             forallb (fun b => implb (clash a b) (String.eqb a b))
                     (export_names q now EmptyString))
          (export_names p now EmptyString) = true.
Proof. destruct p, q; vm_compute; reflexivity. Qed.

(** X7.  A name exported by two deployed documents (of the same or of
    two different scripts) is exported under one and the same stack name:
    stacks with different names never export the same name, whatever the
    names are. *)
Theorem exports_collide_only_within_a_stack
  (now : datetime) (p q : program) (s s' n : string) :
  In n (export_names p now s) ->
  In n (export_names q now s') ->
  s = s'.
Proof.
  intros Hp Hq.
  rewrite export_names_shape in Hp, Hq.
  apply in_map_iff in Hp. destruct Hp as [a [Ha Hain]].
  apply in_map_iff in Hq. destruct Hq as [b [Hb Hbin]].
  subst n.
  pose proof (export_endings_clash p q now) as Hall.
  rewrite forallb_forall in Hall. specialize (Hall a Hain).
  rewrite forallb_forall in Hall. specialize (Hall b Hbin).
  symmetry in Hb. rewrite (append_eq_clash _ _ _ _ Hb) in Hall.
  simpl in Hall. apply String.eqb_eq in Hall. subst b.
  now apply append_inv_tail in Hb.
Qed.

Lemma exports_collide_only_within_a_stack_witness : "acme" = "acme".
Proof.
  apply (exports_collide_only_within_a_stack a_day SecurityGroupsPy LoadBalancersPy
           "acme" "acme" "acme-api");
    vm_compute; tauto.
Defined.

Lemma export_endings_distinct (p : program) (now : datetime) :
  distinct (export_names p now EmptyString) = true.
Proof. destruct p; vm_compute; reflexivity. Qed.

(** X8.  Under any stack name, the names one document exports are
    pairwise distinct. *)
Theorem export_names_distinct (p : program) (now : datetime) (s : string) :
  NoDup (export_names p now s).
Proof.
  rewrite export_names_shape. apply NoDup_map_append.
  apply distinct_NoDup, export_endings_distinct.
Qed.

Ltac earlier_exporter_is q :=
  exists q; split;
  [ apply Nat.ltb_lt; vm_compute; reflexivity
  | intros s; eexists; split;
    [ vm_compute; reflexivity
    | vm_compute; solve [repeat (first [left; reflexivity | right])] ] ].

(** X9.  The stacks can be deployed in the order [vpc.py],
    [security-groups.py], [db.py], [load-balancers.py], [api-asg.py]:
    every name a document imports is exported by a document earlier in
    that order, so the import relation between the five documents has no
    cycle. *)
Theorem imports_come_from_earlier_stacks (now : datetime) (p : program) (i : value) :
  In i (import_exprs p now) ->
  exists q, deploy_rank q < deploy_rank p /\
    forall s, exists n,
      import_name p now s i = Some n /\ In n (export_names q now s).
Proof.
  intros Hin.
  destruct p; compute_list Hin;
    repeat (destruct Hin as [<- | Hin];
            [ first [ earlier_exporter_is VpcPy
                    | earlier_exporter_is SecurityGroupsPy
                    | earlier_exporter_is DbPy
                    | earlier_exporter_is LoadBalancersPy
                    | earlier_exporter_is ApiAsgPy ] |]);
    exact (False_ind _ Hin).
Qed.

Lemma imports_come_from_earlier_stacks_witness :
  exists q, deploy_rank q < deploy_rank LoadBalancersPy /\
    forall s, exists n,
      import_name LoadBalancersPy a_day s
        (Join "-" [Ref "DBBrokerStackName"; Str "instance-1"]) = Some n /\
      In n (export_names q a_day s).
Proof.
  apply (imports_come_from_earlier_stacks a_day LoadBalancersPy
           (Join "-" [Ref "DBBrokerStackName"; Str "instance-1"])).
  vm_compute. tauto.
Defined.

(** X10.  Every name exported by the documents of [vpc.py] and [db.py],
    and the name [<stack>-api-tg] exported by [load-balancers.py], is
    imported by the document of another script (with its stack-name
    parameter set to that stack). *)
Theorem exports_that_are_imported (now : datetime) (p : program) (s n : string) :
  In n (export_names p now s) ->
  p = VpcPy \/ p = DbPy \/ (p = LoadBalancersPy /\ n = s ++ "-api-tg") ->
  exists q, q <> p /\ In n (import_names q now s).
Proof.
  intros Hin Hp.
  rewrite export_names_shape in Hin.
  apply in_map_iff in Hin. destruct Hin as [a [<- Hin]].
  destruct Hp as [-> | [-> | [-> Heq]]].
  - compute_list Hin.
    repeat (destruct Hin as [<- | Hin];
            [ first [ (exists SecurityGroupsPy; split; [clear; discriminate |];
                       vm_compute; solve [repeat (first [left; reflexivity | right])])
                    | (exists DbPy; split; [clear; discriminate |];
                       vm_compute; solve [repeat (first [left; reflexivity | right])])
                    | (exists LoadBalancersPy; split; [clear; discriminate |];
                       vm_compute; solve [repeat (first [left; reflexivity | right])]) ] |]).
    exact (False_ind _ Hin).
  - compute_list Hin.
    repeat (destruct Hin as [<- | Hin];
            [ exists LoadBalancersPy; split; [clear; discriminate |];
              vm_compute; solve [repeat (first [left; reflexivity | right])] |]).
    exact (False_ind _ Hin).
  - apply append_inv_head in Heq. subst a. clear Hin.
    exists ApiAsgPy. split; [clear; discriminate |].
    vm_compute. solve [repeat (first [left; reflexivity | right])].
Qed.

Lemma exports_that_are_imported_witness :
  exists q, q <> DbPy /\ In "acme-db-instance-2" (import_names q a_day "acme-db").
Proof.
  apply (exports_that_are_imported a_day DbPy "acme-db" "acme-db-instance-2").
  - vm_compute. tauto.
  - right. left. reflexivity.
Defined.

(** The endings [security-groups.py] exports, and the endings
    [load-balancers.py] exports other than [-api-tg], clash with no
    ending any document imports. *)
Lemma unused_endings_check (q : program) (now : datetime) :
  forallb (fun a =>
             forallb (fun b => negb (clash a b)) (import_names q now EmptyString))
          (export_names SecurityGroupsPy now EmptyString
             ++ filter (fun a => negb (String.eqb a "-api-tg"))
                       (export_names LoadBalancersPy now EmptyString))%list = true.
Proof. destruct q; vm_compute; reflexivity. Qed.

(** X11.  No document imports any of the names [security-groups.py]
    exports, nor any name [load-balancers.py] exports other than
    [<stack>-api-tg], under any stack names: these outputs are exported
    and never consumed by the other scripts (which take the security
    groups as a [SecurityGroupName] parameter instead). *)
Theorem exports_never_imported
  (now : datetime) (p q : program) (s s' n : string) :
  In n (export_names p now s) ->
  p = SecurityGroupsPy \/ (p = LoadBalancersPy /\ n <> s ++ "-api-tg") ->
  ~ In n (import_names q now s').
Proof.
  intros Hin Hp Himp.
  rewrite export_names_shape in Hin.
  apply in_map_iff in Hin. destruct Hin as [a [<- Hin]].
  rewrite import_names_shape in Himp.
  pose proof (unused_endings_check q now) as Hall.
  rewrite forallb_forall in Hall.
  assert (Ha : In a (export_names SecurityGroupsPy now EmptyString
                       ++ filter (fun a => negb (String.eqb a "-api-tg"))
                                 (export_names LoadBalancersPy now EmptyString))%list).
  { apply in_or_app. destruct Hp as [-> | [-> Hne]]; [left; exact Hin | right].
    apply filter_In. split; [exact Hin |].
    destruct (String.eqb a "-api-tg") eqn:Heq; [| reflexivity].
    apply String.eqb_eq in Heq. subst a. contradiction Hne. reflexivity. }
  exact (no_clash_no_match a _ s s' (Hall a Ha) Himp).
Qed.

Lemma exports_never_imported_witness :
  ~ In "acme-sg-database" (import_names DbPy a_day "acme-sg").
Proof.
  apply (exports_never_imported a_day SecurityGroupsPy DbPy
           "acme-sg" "acme-sg" "acme-sg-database").
  - vm_compute. tauto.
  - left. reflexivity.
Defined.

(* ===================================================================== *)
(** * Inside the documents *)
(* ===================================================================== *)

Ltac the_document Hasm t :=
  rewrite assemble_document in Hasm; apply inr_inj in Hasm; subst t.

(** X12.  In the document of [vpc.py] every subnet is the [SubnetId] of
    exactly one route-table association and of exactly one network-ACL
    association; a subnet that maps public addresses on launch is
    associated with [PublicRouteTable] and [PublicNetworkAcl], any other
    subnet with [PrivateRouteTable] and [PrivateNetworkAcl]. *)
Theorem subnets_wired (now : datetime) (t : Template) (sn : AWSObject) :
  assemble VpcPy now = inr t ->
  In sn (resources_of_class "Subnet" t) ->
  exists rta acl,
    associations "SubnetRouteTableAssociation" t sn = [rta] /\
    associations "SubnetNetworkAclAssociation" t sn = [acl] /\
    lookup "RouteTableId" (properties rta) =
      Some (Ref (if is_public sn then "PublicRouteTable" else "PrivateRouteTable")) /\
    lookup "NetworkAclId" (properties acl) =
      Some (Ref (if is_public sn then "PublicNetworkAcl" else "PrivateNetworkAcl")).
Proof.
  intros Hasm Hin. the_document Hasm t. compute_list Hin.
  repeat (destruct Hin as [<- | Hin];
          [ do 2 eexists;
            split; [vm_compute; reflexivity |];
            split; [vm_compute; reflexivity |];
            split; vm_compute; reflexivity |]).
  exact (False_ind _ Hin).
Qed.

Lemma subnets_wired_witness :
  exists rta acl,
    associations "SubnetRouteTableAssociation" (document VpcPy a_day)
                 Vpc.private_subnet_2 = [rta] /\
    associations "SubnetNetworkAclAssociation" (document VpcPy a_day)
                 Vpc.private_subnet_2 = [acl] /\
    lookup "RouteTableId" (properties rta) =
      Some (Ref (if is_public Vpc.private_subnet_2
                 then "PublicRouteTable" else "PrivateRouteTable")) /\
    lookup "NetworkAclId" (properties acl) =
      Some (Ref (if is_public Vpc.private_subnet_2
                 then "PublicNetworkAcl" else "PrivateNetworkAcl")).
Proof.
  apply (subnets_wired a_day (document VpcPy a_day) Vpc.private_subnet_2).
  - vm_compute. reflexivity.
  - vm_compute. tauto.
Defined.

(** The subnets of the document: three public and three private. *)
Remark vpc_subnets (now : datetime) :
  map (fun sn => (title sn, is_public sn))
      (resources_of_class "Subnet" (document VpcPy now))
  = [ ("PublicSubnet1", true); ("PublicSubnet2", true); ("PublicSubnet3", true);
      ("PrivateSubnet1", false); ("PrivateSubnet2", false); ("PrivateSubnet3", false) ].
Proof. vm_compute. reflexivity. Qed.

(** X13.  In the document of [security-groups.py] every ingress rule is a
    TCP rule for a single port ([FromPort] and [ToPort] agree), and the
    only rules open to every address ([CidrIp] 0.0.0.0/0) are those of
    [LoadBalancerSecurityGroup], for port 80 and port 443. *)
Theorem ingress_rules_shape
  (now : datetime) (t : Template) (sg : AWSObject) (rule : list (string * value)) :
  assemble SecurityGroupsPy now = inr t ->
  In sg (map snd (resources t)) ->
  In rule (ingress_rules sg) ->
  lookup "IpProtocol" rule = Some (Str "tcp") /\
  lookup "FromPort" rule = lookup "ToPort" rule /\
  (lookup "CidrIp" rule = Some (Str "0.0.0.0/0") ->
   title sg = "LoadBalancerSecurityGroup" /\
   (lookup "FromPort" rule = Some (Int 80) \/ lookup "FromPort" rule = Some (Int 443))).
Proof.
  intros Hasm Hsg Hrule. the_document Hasm t. compute_list Hsg.
  repeat (destruct Hsg as [<- | Hsg];
          [ compute_list Hrule;
            repeat (destruct Hrule as [<- | Hrule];
                    [ split; [vm_compute; reflexivity |];
                      split; [vm_compute; reflexivity |];
                      vm_compute; intros H;
                      first [ discriminate H
                            | split; [reflexivity |];
                              first [left; reflexivity | right; reflexivity] ] |]);
            exact (False_ind _ Hrule) |]).
  exact (False_ind _ Hsg).
Qed.

Lemma ingress_rules_shape_witness :
  lookup "IpProtocol" alb_https_rule = Some (Str "tcp") /\
  lookup "FromPort" alb_https_rule = lookup "ToPort" alb_https_rule /\
  (lookup "CidrIp" alb_https_rule = Some (Str "0.0.0.0/0") ->
   title SecurityGroups.alb_security_group = "LoadBalancerSecurityGroup" /\
   (lookup "FromPort" alb_https_rule = Some (Int 80) \/
    lookup "FromPort" alb_https_rule = Some (Int 443))).
Proof.
  apply (ingress_rules_shape a_day (document SecurityGroupsPy a_day)
           SecurityGroups.alb_security_group alb_https_rule).
  - vm_compute. reflexivity.
  - vm_compute. tauto.
  - vm_compute. tauto.
Defined.

Lemma find_in_map_check (p : program) (now : datetime) :
  match assemble p now with
  | inr t =>
      forallb (fun o =>
                 forallb (fun k =>
                            match find_in_map t (fst (fst k)) (snd (fst k)) (snd k) with
                            | Some _ => true
                            | None => false
                            end)
                         (object_findinmaps o))
              (body t)
  | inl _ => false
  end = true.
Proof. destruct p; vm_compute; reflexivity. Qed.

(** X14.  Every [FindInMap] in a document reads an entry that the
    document's mappings hold: no lookup misses its map, its top-level key
    or its second-level key. *)
Theorem find_in_map_resolves
  (p : program) (now : datetime) (t : Template) (o : AWSObject)
  (m k1 k2 : string) :
  assemble p now = inr t ->
  In o (body t) ->
  In (m, k1, k2) (object_findinmaps o) ->
  exists v, find_in_map t m k1 k2 = Some v.
Proof.
  intros Hasm Ho Hk.
  pose proof (find_in_map_check p now) as Hchk.
  rewrite Hasm in Hchk. rewrite forallb_forall in Hchk.
  specialize (Hchk o Ho). rewrite forallb_forall in Hchk.
  specialize (Hchk (m, k1, k2) Hk). cbn [fst snd] in Hchk.
  destruct (find_in_map t m k1 k2) as [v |]; [now exists v | discriminate Hchk].
Qed.

Lemma find_in_map_resolves_witness :
  exists v,
    find_in_map (document VpcPy a_day) "SubnetConfig" "PrivateSubnet3" "CIDR" = Some v.
Proof.
  apply (find_in_map_resolves VpcPy a_day (document VpcPy a_day)
           Vpc.private_subnet_3 "SubnetConfig" "PrivateSubnet3" "CIDR").
  - vm_compute. reflexivity.
  - vm_compute. tauto.
  - vm_compute. tauto.
Defined.

(** The entries read are the CIDR blocks the script defines. *)
Remark vpc_cidr_blocks (now : datetime) :
  map (fun k => find_in_map (document VpcPy now) "SubnetConfig" k "CIDR")
      ["VPC"; "PublicSubnet1"; "PublicSubnet2"; "PublicSubnet3";
       "PrivateSubnet1"; "PrivateSubnet2"; "PrivateSubnet3"]
  = map Some [Vpc.vpc_cidr_block;
              Vpc.public_subnet_1_cidr; Vpc.public_subnet_2_cidr;
              Vpc.public_subnet_3_cidr; Vpc.private_subnet_1_cidr;
              Vpc.private_subnet_2_cidr; Vpc.private_subnet_3_cidr].
Proof. vm_compute. reflexivity. Qed.

(** X15.  In the document of [load-balancers.py] every action of type
    [forward], in a listener or in a listener rule, forwards to
    [MQTargetGroup] or to [MQUITargetGroup]: no listener of the document
    forwards to [APITargetGroup]. *)
Theorem forward_targets
  (now : datetime) (t : Template) (o : AWSObject) (a : list (string * value)) :
  assemble LoadBalancersPy now = inr t ->
  In o (map snd (resources t)) ->
  In a (object_actions o) ->
  lookup "Type" a = Some (Str "forward") ->
  lookup "TargetGroupArn" a = Some (Ref "MQTargetGroup") \/
  lookup "TargetGroupArn" a = Some (Ref "MQUITargetGroup").
Proof.
  intros Hasm Ho Ha. the_document Hasm t. compute_list Ho.
  repeat (destruct Ho as [<- | Ho];
          [ compute_list Ha;
            repeat (destruct Ha as [<- | Ha];
                    [ vm_compute; intros H;
                      first [ discriminate H
                            | left; reflexivity
                            | right; reflexivity ] |]);
            exact (False_ind _ Ha) |]).
  exact (False_ind _ Ho).
Qed.

Lemma forward_targets_witness :
  lookup "TargetGroupArn" https_rule_action = Some (Ref "MQTargetGroup") \/
  lookup "TargetGroupArn" https_rule_action = Some (Ref "MQUITargetGroup").
Proof.
  apply (forward_targets a_day (document LoadBalancersPy a_day)
           LoadBalancers.api_https_listener_rule https_rule_action).
  - vm_compute. reflexivity.
  - vm_compute. tauto.
  - vm_compute. tauto.
  - reflexivity.
Defined.

(** The API target group is a resource of the document all the same, and
    it is exported. *)
Remark api_target_group_declared (now : datetime) :
  In "APITargetGroup" (keys (resources (document LoadBalancersPy now))) /\
  In "-api-tg" (export_names LoadBalancersPy now EmptyString).
Proof. split; vm_compute; tauto. Qed.

(* ===================================================================== *)
(** * The builder on any call sequence *)
(* ===================================================================== *)

Lemma NoDup_snoc (l : list string) (x : string) :
  NoDup l -> ~ In x l -> NoDup (l ++ [x])%list.
Proof.
  induction 1 as [| a l Ha Hnd IH]; simpl; intros Hx.
  - constructor; [intros [] | constructor].
  - constructor.
    + intros Hin. apply in_app_or in Hin. destruct Hin as [Hin | [-> | []]].
      * contradiction.
      * apply Hx. now left.
    + apply IH. intros Hin. apply Hx. now right.
Qed.

Lemma keys_snoc {A : Type} (d : dict A) (k : string) (v : A) :
  keys (d ++ [(k, v)])%list = (keys d ++ [k])%list.
Proof. unfold keys. now rewrite map_app. Qed.

Ltac sections :=
  cbn [parameters resources outputs
       parameter_titles resource_titles output_titles flat_map app].

(** One call that does not raise appends the title it adds, which is new
    in its section, and touches no other section. *)
Lemma exec_titles (s : stmt) (t0 t1 : Template) (u : unit) :
  runStateT (exec s) t0 = inr (u, t1) ->
  keys (parameters t1) = (keys (parameters t0) ++ parameter_titles [s])%list /\
  keys (resources t1) = (keys (resources t0) ++ resource_titles [s])%list /\
  keys (outputs t1) = (keys (outputs t0) ++ output_titles [s])%list /\
  (sections_ok t0 -> sections_ok t1).
Proof.
  unfold sections_ok.
  destruct s as [v | d | n m | o | o | o];
    cbn -[Nat.leb MAX_MAPPINGS MAX_PARAMETERS MAX_RESOURCES MAX_OUTPUTS _update];
    intros H.
  - injection H as _ <-. sections. rewrite !app_nil_r. tauto.
  - injection H as _ <-. sections. rewrite !app_nil_r. tauto.
  - destruct (Nat.leb MAX_MAPPINGS (Datatypes.length (mappings t0)));
      cbn -[_update] in H; [discriminate H |].
    injection H as _ <-. sections. rewrite !app_nil_r. tauto.
  - destruct (Nat.leb MAX_PARAMETERS (Datatypes.length (parameters t0)));
      cbn -[_update] in H; [discriminate H |].
    destruct (_update (parameters t0) o) as [e | d] eqn:Hu; cbn in H;
      [discriminate H |].
    injection H as _ <-. sections. apply _update_inr in Hu. destruct Hu as [Hnew ->].
    rewrite keys_snoc, ?app_nil_r.
    do 3 (split; [reflexivity |]).
    intros [Hp [Hr Ho]]. repeat split; try assumption. now apply NoDup_snoc.
  - destruct (Nat.leb MAX_RESOURCES (Datatypes.length (resources t0)));
      cbn -[_update] in H; [discriminate H |].
    destruct (_update (resources t0) o) as [e | d] eqn:Hu; cbn in H;
      [discriminate H |].
    injection H as _ <-. sections. apply _update_inr in Hu. destruct Hu as [Hnew ->].
    rewrite keys_snoc, ?app_nil_r.
    do 3 (split; [reflexivity |]).
    intros [Hp [Hr Ho]]. repeat split; try assumption. now apply NoDup_snoc.
  - destruct (Nat.leb MAX_OUTPUTS (Datatypes.length (outputs t0)));
      cbn -[_update] in H; [discriminate H |].
    destruct (_update (outputs t0) o) as [e | d] eqn:Hu; cbn in H;
      [discriminate H |].
    injection H as _ <-. sections. apply _update_inr in Hu. destruct Hu as [Hnew ->].
    rewrite keys_snoc, ?app_nil_r.
    do 3 (split; [reflexivity |]).
    intros [Hp [Hr Ho]]. repeat split; try assumption. now apply NoDup_snoc.
Qed.

Lemma titles_cons (s : stmt) (rest : list stmt) :
  parameter_titles (s :: rest) = (parameter_titles [s] ++ parameter_titles rest)%list /\
  resource_titles (s :: rest) = (resource_titles [s] ++ resource_titles rest)%list /\
  output_titles (s :: rest) = (output_titles [s] ++ output_titles rest)%list.
Proof.
  unfold parameter_titles, resource_titles, output_titles. cbn [flat_map].
  rewrite !app_nil_r. auto.
Qed.

Lemma run_from_titles (ss : list stmt) (t0 t : Template) :
  run_from t0 ss = inr t ->
  keys (parameters t) = (keys (parameters t0) ++ parameter_titles ss)%list /\
  keys (resources t) = (keys (resources t0) ++ resource_titles ss)%list /\
  keys (outputs t) = (keys (outputs t0) ++ output_titles ss)%list /\
  (sections_ok t0 -> sections_ok t).
Proof.
  revert t0. induction ss as [| s rest IH]; intros t0 H.
  - rewrite run_from_nil in H. injection H as <-.
    sections. rewrite !app_nil_r. tauto.
  - rewrite run_from_cons in H.
    destruct (runStateT (exec s) t0) as [e | [u t1]] eqn:Hs; [discriminate H |].
    destruct (exec_titles s t0 t1 u Hs) as [P1 [R1 [O1 K1]]].
    destruct (IH t1 H) as [P [R [O K]]].
    destruct (titles_cons s rest) as [Tp [Tr To]].
    rewrite P, R, O, P1, R1, O1, Tp, Tr, To, <- !app_assoc.
    do 3 (split; [reflexivity |]). tauto.
Qed.

(** X16.  For any sequence of calls on a fresh template that runs to the
    end: each section of the template holds, in call order, exactly the
    titles the calls added to it, and no title was added twice to the
    same section. *)
Theorem build_keeps_titles (ss : list stmt) (t : Template) :
  build ss = inr t ->
  keys (parameters t) = parameter_titles ss /\
  keys (resources t) = resource_titles ss /\
  keys (outputs t) = output_titles ss /\
  NoDup (parameter_titles ss) /\
  NoDup (resource_titles ss) /\
  NoDup (output_titles ss).
Proof.
  intros H. destruct (run_from_titles ss Template_init t H) as [P [R [O K]]].
  cbn in P, R, O.
  assert (Hinit : sections_ok Template_init) by (repeat split; constructor).
  destruct (K Hinit) as [Np [Nr No]].
  rewrite P in Np. rewrite R in Nr. rewrite O in No. tauto.
Qed.

Lemma build_keeps_titles_witness :
  keys (parameters (document DbPy a_day)) = parameter_titles Db.script /\
  keys (resources (document DbPy a_day)) = resource_titles Db.script /\
  keys (outputs (document DbPy a_day)) = output_titles Db.script /\
  NoDup (parameter_titles Db.script) /\
  NoDup (resource_titles Db.script) /\
  NoDup (output_titles Db.script).
Proof.
  apply (build_keeps_titles Db.script (document DbPy a_day)).
  vm_compute. reflexivity.
Defined.

(** X17.  Adding a second resource under a title a resource was already
    added under makes the assembly raise, wherever in the sequence the two
    calls stand and whatever follows them; the same holds for two
    parameters and for two outputs. *)
Theorem repeated_title_raises (pre post : list stmt) (o : AWSObject) :
  In (title o) (resource_titles pre) ->
  exists e, build (pre ++ AddResource o :: post) = inl e.
Proof.
  intros Hin.
  destruct (build (pre ++ AddResource o :: post)) as [e | t] eqn:Hb;
    [now exists e |].
  exfalso.
  destruct (run_from_titles _ Template_init t Hb) as [_ [R [_ K]]].
  assert (Hinit : sections_ok Template_init) by (repeat split; constructor).
  destruct (K Hinit) as [_ [Nr _]]. rewrite R in Nr. cbn in Nr.
  unfold resource_titles in Nr. rewrite flat_map_app in Nr. cbn in Nr.
  apply NoDup_remove_2 in Nr. apply Nr.
  apply in_or_app. left. exact Hin.
Qed.

Lemma repeated_title_raises_witness :
  exists e,
    build ([AddResource Vpc.vpc; AddResource Vpc.internet_gateway]
             ++ AddResource Vpc.vpc :: [AddOutput Vpc.vpc_output]) = inl e.
Proof.
  apply (repeated_title_raises
           [AddResource Vpc.vpc; AddResource Vpc.internet_gateway]
           [AddOutput Vpc.vpc_output] Vpc.vpc).
  vm_compute. tauto.
Defined.

(* ===================================================================== *)
(** * Constants the scripts define and do not use *)
(* ===================================================================== *)

Lemma unused_constants_check (p : program) (now : datetime) :
  forallb (fun o =>
             negb (mem Vpc.office_ip_1 (object_strings o))
             && negb (mem LoadBalancers.office_ip_2 (object_strings o))
             && negb (mem "AWS::StackId" (object_refs o)))
          (body (document p now)) = true.
Proof. destruct p; vm_compute; reflexivity. Qed.

(** X18.  The office addresses [office_ip_1] and [office_ip_2] that
    [vpc.py] and [load-balancers.py] define occur in no resource or
    output of any of the five documents, and no resource or output refers
    to [AWS::StackId] ([ref_stack_id] of [vpc.py]): the three constants
    are defined and never used, so no rule is restricted to the office
    addresses. *)
Theorem office_addresses_unused (p : program) (now : datetime) (o : AWSObject) :
  In o (body (document p now)) ->
  ~ In Vpc.office_ip_1 (object_strings o) /\
  ~ In LoadBalancers.office_ip_2 (object_strings o) /\
  ~ In "AWS::StackId" (object_refs o).
Proof.
  intros Hin.
  pose proof (unused_constants_check p now) as Hchk.
  rewrite forallb_forall in Hchk. specialize (Hchk o Hin).
  apply andb_true_iff in Hchk. destruct Hchk as [Hchk H3].
  apply andb_true_iff in Hchk. destruct Hchk as [H1 H2].
  repeat split; intros H; apply mem_In in H;
    [rewrite H in H1 | rewrite H in H2 | rewrite H in H3]; discriminate.
Qed.

Lemma office_addresses_unused_witness :
  ~ In Vpc.office_ip_1 (object_strings SecurityGroups.api_security_group) /\
  ~ In LoadBalancers.office_ip_2 (object_strings SecurityGroups.api_security_group) /\
  ~ In "AWS::StackId" (object_refs SecurityGroups.api_security_group).
Proof.
  apply (office_addresses_unused SecurityGroupsPy a_day
           SecurityGroups.api_security_group).
  vm_compute. tauto.
Defined.
